(** * django_celery_beat.querysets: UTC hour and minute of crontab schedules

    A model of [src/django_celery_beat/querysets.py].  The module builds a
    table of the current UTC offset of every timezone of the host database
    ([get_timezone_offsets]) and annotates a queryset of crontab schedules
    with three computed columns, [offset], [utc_hour] and [utc_minute]
    ([annotate_with_utc_hour_minute]).

    The annotations are query expressions ([Case], [When], [Cast], [Mod],
    [Floor]) that the database evaluates row by row.  [Case], [When], [Mod]
    and [Floor] are modelled by functions of the same names.  What the regex
    matches, which text the cast to an integer accepts and how the cast to
    text writes a number differ from one database to the other: they are the
    three fields of a [Backend], and the annotations are functions of the
    backend.  Two backends are given, [PostgreSQL] and [SQLite].
    - The offsets are the floats of [timedelta.total_seconds()], always whole
      seconds; they are kept in [Z], and [/] is the division of the rationals
      ([Q]).  The arithmetic is exact.  PostgreSQL computes these expressions
      in [numeric]; SQLite computes them in floating point, which is exact
      for the numbers of an [IntegerField] (up to 2147483647) and offsets
      within a day.
    - An expression that the database refuses to evaluate has no value
      ([None]), and one such row makes the whole query fail.
    - [annotate_with_utc_hour_minute] and the methods of
      [CrontabScheduleQuerySet] are given together with the evaluation of
      the queryset they return. *)

From Stdlib Require Import ZArith QArith Qround String Ascii List.
From Stdlib Require Import Decimal DecimalString DecimalPos DecimalZ.
From stdpp Require Import base option list gmap strings.

Local Open Scope Z_scope.
Local Open Scope string_scope.

(** ** Query expressions *)

Module Sql.

(** One of the ten ASCII digits. *)
Definition is_digit (c : ascii) : bool :=
  match c with
  | "0" | "1" | "2" | "3" | "4" | "5" | "6" | "7" | "8" | "9" => true
  | _ => false
  end%char.

Fixpoint all_digits (s : string) : bool :=
  match s with
  | EmptyString => true
  | String c rest => is_digit c && all_digits rest
  end.

(** [Floor]: the greatest integer below a quotient. *)
Definition Floor (q : Q) : Z := Qfloor q.

(** [Mod] is the [MOD] function of the database: the remainder of the
    division that truncates towards zero, so its sign is the sign of the
    dividend ([MOD] of PostgreSQL, MySQL and Oracle; on SQLite the function
    is [math.fmod]). *)
Definition Mod (a b : Z) : Z := Z.rem a b.

(** [When(condition, then=value)] and [Case] over a list of them: the
    value of the first [When] whose condition holds, the default when none
    does. *)
Definition When {A : Type} (condition : bool) (then_ : A) : bool * A :=
  (condition, then_).

Fixpoint Case {A : Type} (whens : list (bool * A)) (default : A) : A :=
  match whens with
  | [] => default
  | (condition, then_) :: rest => if condition then then_ else Case rest default
  end.

(** The decimal numeral of an integer, with a minus sign when it is negative
    and without leading zeros, and the integer that a numeral denotes (an
    optional minus sign, then digits). *)
Definition numeral (n : Z) : string := NilZero.string_of_int (Z.to_int n).

Definition decimal (s : string) : option Z :=
  Z.of_int <$> NilZero.int_of_string s.

(** What depends on the database:
    - [regex_digits]: the lookup [<field>__regex = r"^\d+$"];
    - [Cast_Integer]: [Cast(<text>, output_field=IntegerField())], [None]
      when the database raises an error;
    - [Cast_Char]: [Cast(<number>, output_field=CharField())] of a number
      computed by the annotations. *)
Record Backend := mkBackend {
  regex_digits : string -> bool;
  Cast_Integer : string -> option Z;
  Cast_Char : Z -> string
}.

End Sql.

Import Sql.

(** PostgreSQL.  The regex matches one or more ASCII digits and nothing else.
    The cast is to [integer], four bytes wide: text that is not a numeral and
    numerals out of its range raise an error.  The computed numbers are
    [numeric] without a fractional part and are written as numerals. *)
Module PostgreSQL.

Definition regex_digits (s : string) : bool :=
  match s with
  | EmptyString => false
  | String _ _ => all_digits s
  end.

Definition integer_min : Z := -2147483648.
Definition integer_max : Z := 2147483647.

Definition Cast_Integer (s : string) : option Z :=
  n ← decimal s;
  if ((integer_min <=? n) && (n <=? integer_max))%Z then Some n else None.

Definition Cast_Char (n : Z) : string := numeral n.

Definition backend : Backend := mkBackend regex_digits Cast_Integer Cast_Char.

End PostgreSQL.

(** SQLite, on ASCII text.  The regex is [re.search] of Python: [$] also
    matches before a line feed that ends the text.  (It also takes the
    decimal digits of other scripts for [\d]; text with such characters is
    not described here and is taken as not matched.)  The cast to an integer
    never raises: it reads the longest prefix that is an integer, after
    leading white space, 0 when there is none, and stops at the ends of the
    eight-byte range.  The computed numbers are floats and are written with a
    fractional part (from sixteen digits on a float is written with an
    exponent: such numbers are beyond what is described here). *)
Module SQLite.

Definition LF : ascii := "010"%char.

Fixpoint digits_to_end (s : string) : bool :=
  match s with
  | EmptyString => true
  | String c rest =>
      if is_digit c then digits_to_end rest
      else Ascii.eqb c LF && (if rest is EmptyString then true else false)
  end.

Definition regex_digits (s : string) : bool :=
  match s with
  | EmptyString => false
  | String c _ => is_digit c && digits_to_end s
  end.

Definition is_space (c : ascii) : bool :=
  match c with
  | " " | "009" | "010" | "011" | "012" | "013" => true
  | _ => false
  end%char.

Fixpoint skip_spaces (s : string) : string :=
  match s with
  | EmptyString => EmptyString
  | String c rest => if is_space c then skip_spaces rest else s
  end.

Definition digit_value (c : ascii) : Z := Z.of_nat (nat_of_ascii c) - 48.

Fixpoint digit_prefix (acc : Z) (s : string) : Z :=
  match s with
  | EmptyString => acc
  | String c rest =>
      if is_digit c then digit_prefix (10 * acc + digit_value c) rest else acc
  end.

Definition integer_min : Z := -9223372036854775808.
Definition integer_max : Z := 9223372036854775807.

Definition Cast_Integer (s : string) : option Z :=
  Some match skip_spaces s with
       | String "-" rest => Z.max integer_min (- digit_prefix 0 rest)
       | String "+" rest => Z.min integer_max (digit_prefix 0 rest)
       | text => Z.min integer_max (digit_prefix 0 text)
       end.

Definition Cast_Char (n : Z) : string := numeral n ++ ".0".

Definition backend : Backend := mkBackend regex_digits Cast_Integer Cast_Char.

End SQLite.

(** ** The module *)

(** The rows of an evaluated queryset: either the rows of the queryset that
    was given, or those rows with the three annotations on each. *)
Record Annotated (Model : Type) := mkAnnotated {
  instance : Model;
  offset : Z;
  utc_hour : string;
  utc_minute : string
}.
Arguments mkAnnotated {Model}.
Arguments instance {Model}.
Arguments offset {Model}.
Arguments utc_hour {Model}.
Arguments utc_minute {Model}.

Inductive QuerySet (Model : Type) : Type :=
| plain (rows : list Model)
| annotated (rows : list (Annotated Model)).
Arguments plain {Model}.
Arguments annotated {Model}.

Section Querysets.

Variable backend : Backend.

(** The host timezone database: the identifiers of [available_timezones()]
    in the order the loop visits them, the constructor [ZoneInfo], which
    raises on an entry it cannot load, and the offset from UTC, in seconds,
    of the present instant in a zone ([datetime.now(tz).utcoffset()]
    followed by [total_seconds()], which raises when there is no offset). *)
Variable tzinfo : Type.
Variable available_timezones : list string.
Variable ZoneInfo : string -> option tzinfo.
Variable utcoffset_now : tzinfo -> option Z.

(** The body of the [try] block for one identifier. *)
Definition current_offset (tz_name : string) : option Z :=
  tz ← ZoneInfo tz_name;
  utcoffset_now tz.

(** One turn of the loop: the entry is stored, or the exception is caught
    and the loop goes on with the table as it was. *)
Definition load_timezone (timezone_offsets : gmap string Z)
    (tz_name : string) : gmap string Z :=
  match current_offset tz_name with
  | Some offset_sec => <[tz_name := offset_sec]> timezone_offsets
  | None => timezone_offsets
  end.

Definition get_timezone_offsets : gmap string Z :=
  foldl load_timezone ∅ available_timezones.

(** The model class of the queryset and the columns that the parameters
    [timezone_field], [hour_field] and [minute_field] name. *)
Variable Model : Type.
Variables timezone_field hour_field minute_field : Model -> string.

(** [offset_annotation]: one [When] per key of the table. *)
Definition offset_annotation (timezone_offsets : gmap string Z)
    (timezone : string) : Z :=
  Case (map (fun tz => When (String.eqb timezone tz)
                            (default 0 (timezone_offsets !! tz)))
            (map fst (map_to_list timezone_offsets)))
       0.

Definition utc_hour_annotation (hour : string) (offset : Z) : option string :=
  Case [ When (regex_digits backend hour)
              (h ← Cast_Integer backend hour;
               Some (Cast_Char backend
                       (Mod (h - Floor (inject_Z offset / inject_Z 3600)) 24))) ]
       (Some hour).

Definition utc_minute_annotation (minute : string) (offset : Z) : option string :=
  Case [ When (regex_digits backend minute)
              (m ← Cast_Integer backend minute;
               Some (Cast_Char backend
                       (m - Floor (inject_Z (Mod offset 3600) / inject_Z 60)))) ]
       (Some minute).

(** The three annotations of one row. *)
Definition annotate_row (timezone_offsets : gmap string Z) (row : Model)
    : option (Annotated Model) :=
  let offset := offset_annotation timezone_offsets (timezone_field row) in
  utc_hour ← utc_hour_annotation (hour_field row) offset;
  utc_minute ← utc_minute_annotation (minute_field row) offset;
  Some (mkAnnotated row offset utc_hour utc_minute).

Definition annotate_with_utc_hour_minute (queryset : list Model)
    : option (QuerySet Model) :=
  let timezone_offsets := get_timezone_offsets in
  if decide (timezone_offsets = ∅) then Some (plain queryset)
  else annotated <$> mapM (annotate_row timezone_offsets) queryset.

End Querysets.

Arguments current_offset {tzinfo} ZoneInfo utcoffset_now tz_name.
Arguments load_timezone {tzinfo} ZoneInfo utcoffset_now timezone_offsets tz_name.
Arguments get_timezone_offsets {tzinfo} available_timezones ZoneInfo utcoffset_now.
Arguments annotate_row backend {Model} timezone_field hour_field minute_field
  timezone_offsets row.
Arguments annotate_with_utc_hour_minute backend {tzinfo} available_timezones
  ZoneInfo utcoffset_now {Model} timezone_field hour_field minute_field queryset.

(** [CrontabScheduleQuerySet.with_utc_hour_minute]: the rows of the crontab
    table, with the columns ['timezone'], ['hour'] and ['minute']. *)
Record CrontabSchedule := mkCrontab {
  timezone : string;
  hour : string;
  minute : string
}.

Definition with_utc_hour_minute (backend : Backend) {tzinfo : Type}
    (available_timezones : list string)
    (ZoneInfo : string -> option tzinfo) (utcoffset_now : tzinfo -> option Z)
    (self : list CrontabSchedule) : option (QuerySet CrontabSchedule) :=
  annotate_with_utc_hour_minute backend available_timezones ZoneInfo
    utcoffset_now timezone hour minute self.

(** ** A small host database

    Six zones with the offsets they have outside daylight saving time, and
    one entry that [ZoneInfo] cannot load. *)
Module Host.

Definition zones : list string :=
  ["Asia/Kolkata"; "Broken/Entry"; "America/New_York"; "Asia/Karachi"; "UTC";
   "America/St_Johns"; "Asia/Tehran"].

Definition ZoneInfo (key : string) : option string :=
  if decide (key ∈ ["Asia/Kolkata"; "America/New_York"; "Asia/Karachi"; "UTC";
                    "America/St_Johns"; "Asia/Tehran"])
  then Some key else None.

Definition utcoffset_now (tz : string) : option Z :=
  if String.eqb tz "Asia/Kolkata" then Some 19800
  else if String.eqb tz "America/New_York" then Some (-18000)
  else if String.eqb tz "Asia/Karachi" then Some 18000
  else if String.eqb tz "UTC" then Some 0
  else if String.eqb tz "America/St_Johns" then Some (-12600)
  else if String.eqb tz "Asia/Tehran" then Some 12600
  else None.

Definition with_utc_hour_minute (backend : Backend)
    (self : list CrontabSchedule) : option (QuerySet CrontabSchedule) :=
  with_utc_hour_minute backend zones ZoneInfo utcoffset_now self.

Definition timezone_offsets : gmap string Z :=
  get_timezone_offsets zones ZoneInfo utcoffset_now.

(** A host whose database cannot be read at all. *)
Definition no_ZoneInfo (key : string) : option string := None.

(** Some rows of the crontab table. *)
Definition kolkata_0900 : CrontabSchedule := mkCrontab "Asia/Kolkata" "9" "0".
Definition new_york_0930 : CrontabSchedule :=
  mkCrontab "America/New_York" "9" "30".
Definition karachi_0215 : CrontabSchedule := mkCrontab "Asia/Karachi" "2" "15".
Definition kolkata_ranges : CrontabSchedule :=
  mkCrontab "Asia/Kolkata" "5-10" "*/15".
Definition elsewhere_0930 : CrontabSchedule :=
  mkCrontab "Mars/Olympus_Mons" "9" "30".
Definition utc_0905 : CrontabSchedule := mkCrontab "UTC" "9" "5".
Definition utc_0907_padded : CrontabSchedule := mkCrontab "UTC" "09" "07".

(** A minute field of eleven digits, and an hour field that ends with a line
    feed. *)
Definition utc_oversized : CrontabSchedule := mkCrontab "UTC" "*" "99999999999".
Definition nine_line_feed : string := String "9" (String SQLite.LF EmptyString).
Definition utc_line_feed : CrontabSchedule := mkCrontab "UTC" nine_line_feed "5".

End Host.

(** ** Columns that may be NULL, querysets that are not yet evaluated

    [PeriodicTaskQuerySet.with_crontab_utc_hour_minute] reads the three
    columns through the relation [crontab]; on a row where the relation is
    not set they are NULL.  The same annotations are given here over columns
    that may be NULL ([None]): a comparison with NULL and a regex on NULL are
    unknown, a [When] whose condition is unknown is not taken, and a cast of
    NULL is NULL.

    A queryset is kept here as it is before the database evaluates it: the
    rows it selects and the annotations that were added to it, so that
    [filter] can be applied before or after [annotate].  [fetch] evaluates
    it: the annotations are computed for the selected rows only. *)
Module Nullable.

Record Annotated (Model : Type) := mkAnnotated {
  instance : Model;
  offset : Z;
  utc_hour : option string;
  utc_minute : option string
}.
Arguments mkAnnotated {Model}.
Arguments instance {Model}.
Arguments offset {Model}.
Arguments utc_hour {Model}.
Arguments utc_minute {Model}.

Inductive Rows (Model : Type) : Type :=
| plain (rows : list Model)
| annotated (rows : list (Annotated Model)).
Arguments plain {Model}.
Arguments annotated {Model}.

Record QuerySet (Model : Type) := mkQuerySet {
  selected : list Model;
  annotations : option (Model -> option (Annotated Model))
}.
Arguments mkQuerySet {Model}.
Arguments selected {Model}.
Arguments annotations {Model}.

Definition all {Model : Type} (rows : list Model) : QuerySet Model :=
  mkQuerySet rows None.

Definition filter {Model : Type} (condition : Model -> bool)
    (self : QuerySet Model) : QuerySet Model :=
  mkQuerySet (List.filter condition (selected self)) (annotations self).

Definition fetch {Model : Type} (self : QuerySet Model)
    : option (Rows Model) :=
  match annotations self with
  | None => Some (plain (selected self))
  | Some annotate => annotated <$> mapM annotate (selected self)
  end.

(** The lookups [<field> = value] and [<field>__regex]; [None] is unknown. *)
Definition exact (column : option string) (value : string) : option bool :=
  (fun text => String.eqb text value) <$> column.

Definition regex_digits (backend : Backend) (column : option string)
    : option bool :=
  Sql.regex_digits backend <$> column.

(** A [When] is taken when its condition is true. *)
Definition holds (condition : option bool) : bool := default false condition.

Definition Cast_Integer (backend : Backend) (column : option string)
    : option (option Z) :=
  match column with
  | Some text => Some <$> Sql.Cast_Integer backend text
  | None => Some None
  end.

Section Querysets.

Variable backend : Backend.
Variable tzinfo : Type.
Variable available_timezones : list string.
Variable ZoneInfo : string -> option tzinfo.
Variable utcoffset_now : tzinfo -> option Z.

Variable Model : Type.
Variables timezone_field hour_field minute_field : Model -> option string.

Definition offset_annotation (timezone_offsets : gmap string Z)
    (timezone : option string) : Z :=
  Case (map (fun tz => When (holds (exact timezone tz))
                            (default 0 (timezone_offsets !! tz)))
            (map fst (map_to_list timezone_offsets)))
       0.

Definition utc_hour_annotation (hour : option string) (offset : Z)
    : option (option string) :=
  Case [ When (holds (regex_digits backend hour))
              (fmap (M:=option)
                 (fun h : Z =>
                    Cast_Char backend
                      (Mod (h - Floor (inject_Z offset / inject_Z 3600)) 24))
                 <$> Cast_Integer backend hour) ]
       (Some hour).

Definition utc_minute_annotation (minute : option string) (offset : Z)
    : option (option string) :=
  Case [ When (holds (regex_digits backend minute))
              (fmap (M:=option)
                 (fun m : Z =>
                    Cast_Char backend
                      (m - Floor (inject_Z (Mod offset 3600) / inject_Z 60)))
                 <$> Cast_Integer backend minute) ]
       (Some minute).

Definition annotate_row (timezone_offsets : gmap string Z) (row : Model)
    : option (Annotated Model) :=
  let offset := offset_annotation timezone_offsets (timezone_field row) in
  utc_hour ← utc_hour_annotation (hour_field row) offset;
  utc_minute ← utc_minute_annotation (minute_field row) offset;
  Some (mkAnnotated row offset utc_hour utc_minute).

Definition annotate_with_utc_hour_minute (queryset : QuerySet Model)
    : QuerySet Model :=
  let timezone_offsets :=
    get_timezone_offsets available_timezones ZoneInfo utcoffset_now in
  if decide (timezone_offsets = ∅) then queryset
  else mkQuerySet (selected queryset) (Some (annotate_row timezone_offsets)).

End Querysets.

Arguments annotate_row backend {Model} timezone_field hour_field minute_field
  timezone_offsets row.
Arguments annotate_with_utc_hour_minute backend {tzinfo} available_timezones
  ZoneInfo utcoffset_now {Model} timezone_field hour_field minute_field
  queryset.

End Nullable.

(** The rows of a queryset over columns that are never NULL, seen as rows
    over columns that may be. *)
Definition nullable_row {Model : Type} (a : Annotated Model)
    : Nullable.Annotated Model :=
  Nullable.mkAnnotated (instance a) (offset a)
    (Some (utc_hour a)) (Some (utc_minute a)).

Definition nullable_queryset {Model : Type} (qs : QuerySet Model)
    : Nullable.Rows Model :=
  match qs with
  | plain rows => Nullable.plain rows
  | annotated rows => Nullable.annotated (map nullable_row rows)
  end.

(** ** [PeriodicTaskQuerySet]

    The model class [PeriodicTask] is declared in another file; it is taken
    here as any type of rows with the column [enabled] and the three columns
    of the related crontab.  [prefetch_related] changes how the related rows
    are fetched, not the rows of the queryset. *)
Section PeriodicTaskQuerySet.

Variable backend : Backend.
Variable tzinfo : Type.
Variable available_timezones : list string.
Variable ZoneInfo : string -> option tzinfo.
Variable utcoffset_now : tzinfo -> option Z.

Variable PeriodicTask : Type.
Variable enabled_field : PeriodicTask -> bool.
Variables crontab__timezone crontab__hour crontab__minute
  : PeriodicTask -> option string.

Definition enabled (self : Nullable.QuerySet PeriodicTask)
    : Nullable.QuerySet PeriodicTask :=
  Nullable.filter enabled_field self.

Definition with_crontab_utc_hour_minute (self : Nullable.QuerySet PeriodicTask)
    : Nullable.QuerySet PeriodicTask :=
  Nullable.annotate_with_utc_hour_minute backend available_timezones ZoneInfo
    utcoffset_now crontab__timezone crontab__hour crontab__minute self.

End PeriodicTaskQuerySet.

Arguments enabled {PeriodicTask} enabled_field self.
Arguments with_crontab_utc_hour_minute backend {tzinfo} available_timezones
  ZoneInfo utcoffset_now {PeriodicTask} crontab__timezone crontab__hour
  crontab__minute self.

(** ** Periodic tasks on the small host *)
Module Tasks.

Record PeriodicTask := mkTask {
  name : string;
  is_enabled : bool;
  crontab : option CrontabSchedule
}.

Definition crontab__timezone (t : PeriodicTask) : option string :=
  timezone <$> crontab t.
Definition crontab__hour (t : PeriodicTask) : option string :=
  hour <$> crontab t.
Definition crontab__minute (t : PeriodicTask) : option string :=
  minute <$> crontab t.

Definition with_crontab_utc_hour_minute (backend : Backend)
    (self : Nullable.QuerySet PeriodicTask) : Nullable.QuerySet PeriodicTask :=
  with_crontab_utc_hour_minute backend Host.zones Host.ZoneInfo
    Host.utcoffset_now crontab__timezone crontab__hour crontab__minute self.

Definition backup : PeriodicTask :=
  mkTask "backup" true (Some Host.new_york_0930).
Definition report : PeriodicTask :=
  mkTask "report" false (Some Host.kolkata_ranges).
Definition heartbeat : PeriodicTask := mkTask "heartbeat" true None.
Definition broken : PeriodicTask :=
  mkTask "broken" false (Some Host.utc_oversized).

End Tasks.

(** ** Properties of the query expressions *)

Section SqlFacts.

Lemma Floor_quotient (a b : Z) : Floor (inject_Z a / inject_Z b) = a / b.
Proof. unfold Floor. symmetry. apply Zdiv_Qdiv. Qed.

Lemma is_digit_not_minus (c : ascii) :
  is_digit c = true -> Ascii.eqb c "-" = false.
Proof.
  destruct c as [[] [] [] [] [] [] [] []]; cbn; intros; congruence.
Qed.

Lemma all_digits_uint (s : string) :
  all_digits s = true -> exists d, NilEmpty.uint_of_string s = Some d.
Proof.
  induction s as [|c rest IH]; cbn.
  - intros _. now exists Nil.
  - intros [Hc Hrest]%andb_prop.
    destruct (IH Hrest) as [d ->].
    destruct c as [[] [] [] [] [] [] [] []]; cbn in Hc; try discriminate;
      cbn; eauto.
Qed.

Lemma string_of_uint_all_digits (d : uint) :
  all_digits (NilEmpty.string_of_uint d) = true.
Proof. induction d; cbn; auto. Qed.

(** Text of digits only is a numeral of a number that is not negative. *)
Lemma decimal_digits (s : string) :
  PostgreSQL.regex_digits s = true ->
  exists d, NilZero.int_of_string s = Some d /\ 0 <= Z.of_int d.
Proof.
  destruct s as [|c rest]; [discriminate|].
  intros Hs. unfold PostgreSQL.regex_digits in Hs.
  destruct (all_digits_uint _ Hs) as [d Hd].
  apply andb_prop in Hs as [Hc _].
  exists (Pos d). split.
  - unfold NilZero.int_of_string, NilZero.uint_of_string.
    rewrite (is_digit_not_minus _ Hc), Hd. reflexivity.
  - cbn. unfold Z.of_uint. apply N2Z.is_nonneg.
Qed.

Lemma decimal_numeral (n : Z) : decimal (numeral n) = Some n.
Proof.
  unfold decimal, numeral.
  rewrite NilZero.isi.
  - cbn. f_equal. apply DecimalZ.of_to.
  - destruct n; cbn; try discriminate.
    intros [= H]. now apply DecimalPos.Unsigned.to_uint_nonnil in H.
  - destruct n; cbn; try discriminate.
    intros [= H]. now apply DecimalPos.Unsigned.to_uint_nonnil in H.
Qed.

Lemma regex_digits_numeral (n : Z) :
  PostgreSQL.regex_digits (numeral n) = if decide (0 <= n) then true else false.
Proof.
  unfold numeral.
  destruct n as [|p|p]; cbn.
  - reflexivity.
  - case_decide; [|lia].
    assert (Hnil := DecimalPos.Unsigned.to_uint_nonnil p).
    unfold NilZero.string_of_uint.
    assert (Hd := string_of_uint_all_digits (Pos.to_uint p)).
    destruct (Pos.to_uint p); try congruence; exact Hd.
  - case_decide; [lia|reflexivity].
Qed.

(** The cast of PostgreSQL: the number of the numeral when it fits the four
    bytes of [integer], an error otherwise. *)
Lemma PostgreSQL_cast (s : string) :
  PostgreSQL.Cast_Integer s =
    match decimal s with
    | Some n =>
        if decide (PostgreSQL.integer_min <= n <= PostgreSQL.integer_max)
        then Some n else None
    | None => None
    end.
Proof.
  unfold PostgreSQL.Cast_Integer. destruct (decimal s) as [n|]; [|done]. cbn.
  case_decide as Hrange.
  - destruct Hrange as [Hlo%Z.leb_le Hhi%Z.leb_le]. by rewrite Hlo, Hhi.
  - destruct (Z.leb_spec PostgreSQL.integer_min n);
      destruct (Z.leb_spec n PostgreSQL.integer_max); cbn; try done.
    exfalso. apply Hrange. lia.
Qed.

Lemma PostgreSQL_cast_numeral (n : Z) :
  PostgreSQL.integer_min <= n <= PostgreSQL.integer_max ->
  PostgreSQL.Cast_Integer (numeral n) = Some n.
Proof.
  intros Hrange. rewrite PostgreSQL_cast, decimal_numeral.
  by rewrite decide_True.
Qed.

End SqlFacts.

(** ** Properties of the offset table and of the annotations *)

Section QuerysetFacts.

Context {tzinfo : Type}.
Variable ZoneInfo : string -> option tzinfo.
Variable utcoffset_now : tzinfo -> option Z.

Lemma load_timezone_lookup (acc : gmap string Z) (tz_name key : string) :
  load_timezone ZoneInfo utcoffset_now acc tz_name !! key =
    if decide (key = tz_name)
    then match current_offset ZoneInfo utcoffset_now key with
         | Some offset_sec => Some offset_sec
         | None => acc !! key
         end
    else acc !! key.
Proof.
  unfold load_timezone. case_decide as Hkey.
  - subst key. destruct (current_offset _ _ tz_name); [|done].
    apply lookup_insert_eq.
  - destruct (current_offset _ _ tz_name); [|done].
    by apply lookup_insert_ne.
Qed.

Lemma foldl_load_timezone_lookup (names : list string) (acc : gmap string Z)
    (key : string) :
  foldl (load_timezone ZoneInfo utcoffset_now) acc names !! key =
    if decide (key ∈ names)
    then match current_offset ZoneInfo utcoffset_now key with
         | Some offset_sec => Some offset_sec
         | None => acc !! key
         end
    else acc !! key.
Proof.
  revert acc. induction names as [|tz_name names IH]; intros acc; cbn.
  - case_decide as Hin; [by apply elem_of_nil in Hin | done].
  - rewrite IH, load_timezone_lookup.
    destruct (decide (key = tz_name)) as [->|Hne].
    + rewrite (decide_True _ _ (list_elem_of_here _ _)).
      case_decide; by destruct (current_offset _ _ tz_name).
    + destruct (decide (key ∈ names)) as [Hin|Hnin].
      * by rewrite decide_True by (by apply list_elem_of_further).
      * by rewrite decide_False by (intros [?|?]%elem_of_cons; done).
Qed.

Lemma get_timezone_offsets_lookup (names : list string) (key : string) :
  get_timezone_offsets names ZoneInfo utcoffset_now !! key =
    if decide (key ∈ names) then current_offset ZoneInfo utcoffset_now key
    else None.
Proof.
  unfold get_timezone_offsets.
  rewrite foldl_load_timezone_lookup, lookup_empty.
  case_decide; [|done].
  by destruct (current_offset ZoneInfo utcoffset_now key).
Qed.

(** The chain of [When]s is a lookup in the table, with default 0. *)
Lemma Case_keys (timezone_offsets : gmap string Z) (timezone : string)
    (keys : list string) :
  Case (map (fun tz => When (String.eqb timezone tz)
                            (default 0 (timezone_offsets !! tz))) keys) 0 =
    if decide (timezone ∈ keys) then default 0 (timezone_offsets !! timezone)
    else 0.
Proof.
  induction keys as [|tz keys IH]; cbn.
  - case_decide as Hin; [by apply elem_of_nil in Hin | done].
  - destruct (String.eqb_spec timezone tz) as [->|Hne].
    + by rewrite (decide_True _ _ (list_elem_of_here _ _)).
    + rewrite IH. destruct (decide (timezone ∈ keys)) as [Hin|Hnin].
      * by rewrite decide_True by (by apply list_elem_of_further).
      * by rewrite decide_False by (intros [?|?]%elem_of_cons; done).
Qed.

Lemma offset_annotation_lookup (timezone_offsets : gmap string Z)
    (timezone : string) :
  offset_annotation timezone_offsets timezone =
    default 0 (timezone_offsets !! timezone).
Proof.
  unfold offset_annotation. rewrite Case_keys.
  case_decide as Hin; [done|].
  destruct (timezone_offsets !! timezone) as [o|] eqn:Hlook; [|done].
  exfalso. apply Hin. apply list_elem_of_In, in_map_iff.
  exists (timezone, o). split; [done|].
  by apply list_elem_of_In, elem_of_map_to_list.
Qed.

Variable backend : Backend.

(** The branches of the hour and minute annotations. *)
Lemma utc_hour_fixed (hour : string) (h offset : Z) :
  regex_digits backend hour = true -> Cast_Integer backend hour = Some h ->
  utc_hour_annotation backend hour offset =
    Some (Cast_Char backend (Z.rem (h - offset / 3600) 24)).
Proof.
  intros Hre Hcast. unfold utc_hour_annotation, When, Mod. cbn [Case].
  rewrite Hre, Hcast, Floor_quotient. reflexivity.
Qed.

Lemma utc_hour_raises (hour : string) (offset : Z) :
  regex_digits backend hour = true -> Cast_Integer backend hour = None ->
  utc_hour_annotation backend hour offset = None.
Proof.
  intros Hre Hcast. unfold utc_hour_annotation, When. cbn [Case].
  by rewrite Hre, Hcast.
Qed.

Lemma utc_hour_complex (hour : string) (offset : Z) :
  regex_digits backend hour = false ->
  utc_hour_annotation backend hour offset = Some hour.
Proof. intros Hre. unfold utc_hour_annotation, When. cbn [Case]. by rewrite Hre. Qed.

Lemma utc_minute_fixed (minute : string) (m offset : Z) :
  regex_digits backend minute = true -> Cast_Integer backend minute = Some m ->
  utc_minute_annotation backend minute offset =
    Some (Cast_Char backend (m - Z.rem offset 3600 / 60)).
Proof.
  intros Hre Hcast. unfold utc_minute_annotation, When, Mod. cbn [Case].
  rewrite Hre, Hcast, Floor_quotient. reflexivity.
Qed.

Lemma utc_minute_raises (minute : string) (offset : Z) :
  regex_digits backend minute = true -> Cast_Integer backend minute = None ->
  utc_minute_annotation backend minute offset = None.
Proof.
  intros Hre Hcast. unfold utc_minute_annotation, When. cbn [Case].
  by rewrite Hre, Hcast.
Qed.

Lemma utc_minute_complex (minute : string) (offset : Z) :
  regex_digits backend minute = false ->
  utc_minute_annotation backend minute offset = Some minute.
Proof.
  intros Hre. unfold utc_minute_annotation, When. cbn [Case]. by rewrite Hre.
Qed.

(** An annotation has a value when the cast inside its [When] has one. *)
Lemma utc_hour_is_Some (hour : string) (offset : Z) :
  (regex_digits backend hour = true -> is_Some (Cast_Integer backend hour)) ->
  is_Some (utc_hour_annotation backend hour offset).
Proof.
  intros Hcast. destruct (regex_digits backend hour) eqn:Hre.
  - destruct (Hcast eq_refl) as [h Hh].
    rewrite (utc_hour_fixed _ _ _ Hre Hh). eauto.
  - rewrite (utc_hour_complex _ _ Hre). eauto.
Qed.

Lemma utc_minute_is_Some (minute : string) (offset : Z) :
  (regex_digits backend minute = true ->
   is_Some (Cast_Integer backend minute)) ->
  is_Some (utc_minute_annotation backend minute offset).
Proof.
  intros Hcast. destruct (regex_digits backend minute) eqn:Hre.
  - destruct (Hcast eq_refl) as [m Hm].
    rewrite (utc_minute_fixed _ _ _ Hre Hm). eauto.
  - rewrite (utc_minute_complex _ _ Hre). eauto.
Qed.

Context {Model : Type}.
Variables timezone_field hour_field minute_field : Model -> string.

(** What [annotate_row] computes: the offset is looked up, then the hour and
    the minute are computed from it. *)
Lemma annotate_row_eq (timezone_offsets : gmap string Z) (row : Model) :
  annotate_row backend timezone_field hour_field minute_field
    timezone_offsets row =
  (utc_hour ← utc_hour_annotation backend (hour_field row)
                (default 0 (timezone_offsets !! timezone_field row));
   utc_minute ← utc_minute_annotation backend (minute_field row)
                  (default 0 (timezone_offsets !! timezone_field row));
   Some (mkAnnotated row (default 0 (timezone_offsets !! timezone_field row))
           utc_hour utc_minute)).
Proof. unfold annotate_row. by rewrite offset_annotation_lookup. Qed.

Lemma annotate_row_Some (timezone_offsets : gmap string Z) (row : Model)
    (a : Annotated Model) :
  annotate_row backend timezone_field hour_field minute_field
    timezone_offsets row = Some a ->
  instance a = row /\
  offset a = default 0 (timezone_offsets !! timezone_field row) /\
  utc_hour_annotation backend (hour_field row) (offset a) = Some (utc_hour a) /\
  utc_minute_annotation backend (minute_field row) (offset a) =
    Some (utc_minute a).
Proof.
  rewrite annotate_row_eq.
  destruct (utc_hour_annotation backend (hour_field row) _) as [uh|] eqn:Hh;
    [|done].
  destruct (utc_minute_annotation backend (minute_field row) _) as [um|] eqn:Hm;
    [|done].
  cbn. intros [= <-]. cbn. auto.
Qed.

(** The two ways the function returns. *)
Lemma annotate_empty_table (names : list string) (queryset : list Model) :
  get_timezone_offsets names ZoneInfo utcoffset_now = ∅ ->
  annotate_with_utc_hour_minute backend names ZoneInfo utcoffset_now
    timezone_field hour_field minute_field queryset = Some (plain queryset).
Proof.
  intros Hempty. unfold annotate_with_utc_hour_minute. cbv zeta.
  by rewrite decide_True.
Qed.

Lemma annotate_nonempty_table (names : list string) (queryset : list Model) :
  get_timezone_offsets names ZoneInfo utcoffset_now ≠ ∅ ->
  annotate_with_utc_hour_minute backend names ZoneInfo utcoffset_now
    timezone_field hour_field minute_field queryset =
  annotated <$>
    mapM (annotate_row backend timezone_field hour_field minute_field
            (get_timezone_offsets names ZoneInfo utcoffset_now)) queryset.
Proof.
  intros Hne. unfold annotate_with_utc_hour_minute. cbv zeta.
  by rewrite decide_False.
Qed.

Lemma annotate_Some (names : list string) (queryset : list Model)
    (result : QuerySet Model) :
  annotate_with_utc_hour_minute backend names ZoneInfo utcoffset_now
    timezone_field hour_field minute_field queryset = Some result ->
  (get_timezone_offsets names ZoneInfo utcoffset_now = ∅ /\
   result = plain queryset) \/
  (get_timezone_offsets names ZoneInfo utcoffset_now ≠ ∅ /\
   exists rows,
     result = annotated rows /\
     Forall2 (fun row a =>
                annotate_row backend timezone_field hour_field minute_field
                  (get_timezone_offsets names ZoneInfo utcoffset_now) row
                = Some a) queryset rows).
Proof.
  destruct (decide (get_timezone_offsets names ZoneInfo utcoffset_now = ∅))
    as [Hempty|Hne].
  - rewrite annotate_empty_table by done. intros [= <-]. by left.
  - rewrite annotate_nonempty_table by done.
    destruct (mapM _ queryset) as [rows|] eqn:Hrows; [|done].
    intros [= <-]. right. split; [done|]. exists rows. split; [done|].
    by apply mapM_Some.
Qed.

Lemma annotated_instances (timezone_offsets : gmap string Z)
    (queryset : list Model) (rows : list (Annotated Model)) :
  Forall2 (fun row a =>
             annotate_row backend timezone_field hour_field minute_field
               timezone_offsets row = Some a) queryset rows ->
  map instance rows = queryset.
Proof.
  induction 1 as [|row a queryset rows Hrow _ IH]; [done|].
  cbn. rewrite IH. f_equal. by apply annotate_row_Some in Hrow as [-> _].
Qed.

End QuerysetFacts.

(** Every table is the table of some host: a statement about all hosts is a
    statement about all tables. *)
Lemma every_table_is_built (timezone_offsets : gmap string Z) :
  get_timezone_offsets (map fst (map_to_list timezone_offsets)) Some
    (fun tz : string => timezone_offsets !! tz) = timezone_offsets.
Proof.
  apply map_eq. intros key. rewrite get_timezone_offsets_lookup.
  unfold current_offset. cbn.
  case_decide as Hin; [done|].
  destruct (timezone_offsets !! key) as [o|] eqn:Hlook; [|done].
  exfalso. apply Hin. apply list_elem_of_In, in_map_iff.
  exists (key, o). split; [done|].
  by apply list_elem_of_In, elem_of_map_to_list.
Qed.

(** ** The offset table *)

Section OffsetTable.

Context {tzinfo : Type}.
Variable ZoneInfo : string -> option tzinfo.
Variable utcoffset_now : tzinfo -> option Z.

(** C6: [get_timezone_offsets] yields a table for any list of identifiers
    and any host database.  An identifier is in the table exactly when the
    loop visits it and the body of the [try] block yields an offset for it,
    and it is then bound to that offset; an identifier for which the body
    raises is left out. *)
Theorem get_timezone_offsets_skips_failures (names : list string) :
  let timezone_offsets := get_timezone_offsets names ZoneInfo utcoffset_now in
  (forall tz_name,
      current_offset ZoneInfo utcoffset_now tz_name = None ->
      timezone_offsets !! tz_name = None) /\
  (forall tz_name offset_sec,
      tz_name ∈ names ->
      current_offset ZoneInfo utcoffset_now tz_name = Some offset_sec ->
      timezone_offsets !! tz_name = Some offset_sec) /\
  (forall tz_name offset_sec,
      timezone_offsets !! tz_name = Some offset_sec ->
      tz_name ∈ names /\
      current_offset ZoneInfo utcoffset_now tz_name = Some offset_sec).
Proof.
  cbv zeta. split; [|split].
  - intros tz_name Hnone. rewrite get_timezone_offsets_lookup.
    by case_decide.
  - intros tz_name offset_sec Hin Hsome. rewrite get_timezone_offsets_lookup.
    by rewrite decide_True.
  - intros tz_name offset_sec Hsome.
    rewrite get_timezone_offsets_lookup in Hsome. by case_decide.
Qed.

End OffsetTable.

(** ** The annotated queryset *)

Section AnnotatedQueryset.

Variable backend : Backend.
Context {tzinfo : Type}.
Variable ZoneInfo : string -> option tzinfo.
Variable utcoffset_now : tzinfo -> option Z.
Context {Model : Type}.
Variables timezone_field hour_field minute_field : Model -> string.

(** C3, as amended: in every result of the query, a field that the regex of
    the database does not match is copied to its annotation as it is,
    whatever the timezone of the row and whatever the table holds; with an
    empty table the row itself is returned. *)
Theorem complex_fields_verbatim (names : list string)
    (queryset : list Model) (i : nat) (row : Model)
    (result : QuerySet Model) :
  queryset !! i = Some row ->
  annotate_with_utc_hour_minute backend names ZoneInfo utcoffset_now
    timezone_field hour_field minute_field queryset = Some result ->
  match result with
  | plain rows => rows !! i = Some row
  | annotated rows =>
      exists a,
        rows !! i = Some a /\ instance a = row /\
        (regex_digits backend (hour_field row) = false ->
         utc_hour a = hour_field row) /\
        (regex_digits backend (minute_field row) = false ->
         utc_minute a = minute_field row)
  end.
Proof.
  intros Hrow [[_ ->]|(_ & rows & -> & Hrows)]%annotate_Some; [done|].
  destruct (Forall2_lookup_l _ _ _ _ _ Hrows Hrow) as (a & Ha & Hann).
  exists a. split; [done|].
  apply annotate_row_Some in Hann as (Hinst & _ & Hh & Hm).
  split; [done|]. split; intros Hre.
  - rewrite utc_hour_complex in Hh by done. congruence.
  - rewrite utc_minute_complex in Hm by done. congruence.
Qed.

(** C4: when the table of offsets is empty the function returns the
    queryset it was given: no row is annotated, no offset is made up and no
    field is rewritten. *)
Theorem empty_table_returns_queryset (names : list string)
    (queryset : list Model) :
  get_timezone_offsets names ZoneInfo utcoffset_now = ∅ ->
  annotate_with_utc_hour_minute backend names ZoneInfo utcoffset_now
    timezone_field hour_field minute_field queryset = Some (plain queryset).
Proof. apply annotate_empty_table. Qed.

(** C5: with a table that is not empty, in the result of the query a row
    whose timezone is not a key of the table has the offset 0, and its hour
    and minute annotations are the ones that its fields get under the
    offset 0. *)
Theorem unknown_timezone_is_offset_zero (names : list string)
    (queryset : list Model) (i : nat) (row : Model) :
  get_timezone_offsets names ZoneInfo utcoffset_now ≠ ∅ ->
  queryset !! i = Some row ->
  get_timezone_offsets names ZoneInfo utcoffset_now !! timezone_field row
    = None ->
  is_Some (annotate_with_utc_hour_minute backend names ZoneInfo utcoffset_now
             timezone_field hour_field minute_field queryset) ->
  exists rows a,
    annotate_with_utc_hour_minute backend names ZoneInfo utcoffset_now
      timezone_field hour_field minute_field queryset = Some (annotated rows) /\
    rows !! i = Some a /\ instance a = row /\ offset a = 0 /\
    utc_hour_annotation backend (hour_field row) 0 = Some (utc_hour a) /\
    utc_minute_annotation backend (minute_field row) 0 = Some (utc_minute a).
Proof.
  intros Hne Hrow Hunknown [result Hres].
  destruct (annotate_Some _ _ _ _ _ _ _ _ _ Hres)
    as [[Hempty _]|(_ & rows & -> & Hrows)]; [done|].
  destruct (Forall2_lookup_l _ _ _ _ _ Hrows Hrow) as (a & Ha & Hann).
  exists rows, a. split; [done|]. split; [done|].
  apply annotate_row_Some in Hann as (Hinst & Hoff & Hh & Hm).
  rewrite Hunknown in Hoff. cbn in Hoff. rewrite Hoff in Hh, Hm. auto.
Qed.

(** C7, as amended: the query has a result for every queryset in which the
    integer cast of the database accepts every field that its regex matches:
    the queryset itself (empty table) or one annotated row for each row of
    the queryset, in the same order.  Rows with an unknown timezone or with
    fields that the regex does not match do not make the query fail. *)
Theorem annotate_with_utc_hour_minute_total (names : list string)
    (queryset : list Model) :
  (forall row,
      row ∈ queryset ->
      (regex_digits backend (hour_field row) = true ->
       is_Some (Cast_Integer backend (hour_field row))) /\
      (regex_digits backend (minute_field row) = true ->
       is_Some (Cast_Integer backend (minute_field row)))) ->
  annotate_with_utc_hour_minute backend names ZoneInfo utcoffset_now
    timezone_field hour_field minute_field queryset = Some (plain queryset) \/
  exists rows,
    annotate_with_utc_hour_minute backend names ZoneInfo utcoffset_now
      timezone_field hour_field minute_field queryset = Some (annotated rows) /\
    map instance rows = queryset.
Proof.
  intros Hcast.
  destruct (decide (get_timezone_offsets names ZoneInfo utcoffset_now = ∅))
    as [Hempty|Hne].
  - left. by apply annotate_empty_table.
  - right. rewrite annotate_nonempty_table by done.
    assert (Hall : is_Some
              (mapM (annotate_row backend timezone_field hour_field
                       minute_field
                       (get_timezone_offsets names ZoneInfo utcoffset_now))
                 queryset)).
    { apply mapM_is_Some, Forall_forall. intros row Hin.
      destruct (Hcast row Hin) as [Hhour Hminute].
      unfold compose. rewrite annotate_row_eq.
      destruct (utc_hour_is_Some backend (hour_field row)
                  (default 0 (get_timezone_offsets names ZoneInfo utcoffset_now
                                !! timezone_field row)) Hhour) as [uh ->].
      destruct (utc_minute_is_Some backend (minute_field row)
                  (default 0 (get_timezone_offsets names ZoneInfo utcoffset_now
                                !! timezone_field row)) Hminute) as [um ->].
      cbn. eauto. }
    destruct Hall as [rows Hrows]. exists rows. rewrite Hrows.
    split; [done|]. apply mapM_Some in Hrows.
    by eapply annotated_instances.
Qed.

End AnnotatedQueryset.

(** ** The hour and minute arithmetic *)

Section HourMinuteArithmetic.

(** Where the difference is not negative, [Mod] is the modulus. *)
Lemma utc_hour_fixed_nonneg (backend : Backend) (hour : string) (h offset : Z) :
  regex_digits backend hour = true -> Cast_Integer backend hour = Some h ->
  0 <= h - offset / 3600 ->
  utc_hour_annotation backend hour offset =
    Some (Cast_Char backend ((h - offset / 3600) mod 24)).
Proof.
  intros Hre Hcast Hpos.
  rewrite (utc_hour_fixed _ _ _ _ Hre Hcast).
  by rewrite Z.rem_mod_nonneg by lia.
Qed.

Lemma whole_hours_quotient (k : Z) : 3600 * k / 3600 = k.
Proof. rewrite Z.mul_comm. apply Z.div_mul. lia. Qed.

Lemma whole_hours_quotient_opp (k : Z) : - (3600 * k) / 3600 = - k.
Proof.
  replace (- (3600 * k)) with (- k * 3600) by lia. apply Z.div_mul. lia.
Qed.

(** On PostgreSQL the numeral of a number of [0, 2147483647] is matched by
    the regex and cast back to the number. *)
Lemma PostgreSQL_reads_numeral (n : Z) :
  0 <= n <= 2147483647 ->
  regex_digits PostgreSQL.backend (numeral n) = true /\
  Cast_Integer PostgreSQL.backend (numeral n) = Some n.
Proof.
  intros Hn. split.
  - change (PostgreSQL.regex_digits (numeral n) = true).
    rewrite regex_digits_numeral. by rewrite decide_True by lia.
  - apply PostgreSQL_cast_numeral.
    unfold PostgreSQL.integer_min, PostgreSQL.integer_max. lia.
Qed.

(** On PostgreSQL the cast of text of digits only is the number of the
    numeral, up to 2147483647, and an error above. *)
Lemma PostgreSQL_cast_digits (field : string) (d : Decimal.int) :
  regex_digits PostgreSQL.backend field = true ->
  NilZero.int_of_string field = Some d ->
  0 <= Z.of_int d /\
  Cast_Integer PostgreSQL.backend field =
    if decide (Z.of_int d <= 2147483647) then Some (Z.of_int d) else None.
Proof.
  intros Hre Hd.
  destruct (decimal_digits _ Hre) as (d' & Hd' & Hpos).
  rewrite Hd in Hd'. injection Hd' as <-. split; [done|].
  change (Cast_Integer PostgreSQL.backend field)
    with (PostgreSQL.Cast_Integer field).
  rewrite PostgreSQL_cast. unfold decimal. rewrite Hd. cbn.
  unfold PostgreSQL.integer_min, PostgreSQL.integer_max.
  destruct (decide (Z.of_int d <= 2147483647)).
  - by rewrite decide_True by lia.
  - by rewrite decide_False by lia.
Qed.

(** C10, as amended: on PostgreSQL a field of digits only always takes the
    arithmetic branch, whatever number it denotes and however it is written.
    Up to 2147483647 the field is cast to the number it denotes and the
    annotation is the decimal numeral of the computed integer: there is no
    check of the range of an hour or a minute, and the way the field was
    written is not kept (under the offset 0 the hour annotation is the
    numeral of the number modulo 24).  Above 2147483647 the cast raises. *)
Theorem digits_only_field_is_computed (field : string) (offset : Z) :
  regex_digits PostgreSQL.backend field = true ->
  is_Some (NilZero.int_of_string field) /\
  forall d,
    NilZero.int_of_string field = Some d ->
    0 <= Z.of_int d /\
    (Z.of_int d <= 2147483647 ->
     utc_hour_annotation PostgreSQL.backend field offset =
       Some (NilZero.string_of_int
               (Z.to_int (Z.rem (Z.of_int d - offset / 3600) 24))) /\
     utc_minute_annotation PostgreSQL.backend field offset =
       Some (NilZero.string_of_int
               (Z.to_int (Z.of_int d - Z.rem offset 3600 / 60))) /\
     utc_hour_annotation PostgreSQL.backend field 0 =
       Some (NilZero.string_of_int (Z.to_int (Z.of_int d mod 24)))) /\
    (2147483647 < Z.of_int d ->
     utc_hour_annotation PostgreSQL.backend field offset = None /\
     utc_minute_annotation PostgreSQL.backend field offset = None).
Proof.
  intros Hre. split.
  - destruct (decimal_digits _ Hre) as (d & Hd & _). by exists d.
  - intros d Hd.
    destruct (PostgreSQL_cast_digits _ _ Hre Hd) as [Hpos Hcast].
    split; [done|]. split.
    + intros Hmax. rewrite decide_True in Hcast by done.
      split; [|split].
      * exact (utc_hour_fixed PostgreSQL.backend _ _ offset Hre Hcast).
      * exact (utc_minute_fixed PostgreSQL.backend _ _ offset Hre Hcast).
      * assert (Hzero : 0 <= Z.of_int d - 0 / 3600)
          by (change (0 / 3600) with 0; lia).
        rewrite (utc_hour_fixed_nonneg PostgreSQL.backend _ _ _ Hre Hcast Hzero).
        change (0 / 3600) with 0. by rewrite Z.sub_0_r.
    + intros Hmax. rewrite decide_False in Hcast by lia.
      split.
      * by apply utc_hour_raises.
      * by apply utc_minute_raises.
Qed.

(** C8, as amended: on PostgreSQL, for an hour field that denotes [h] in
    [0,23] and an offset of a whole number [k] of hours with [h - k] in
    [0,23], annotating with the offset and then annotating the result with
    the opposite offset gives the numeral of [h]. *)
Theorem whole_hour_round_trip (hour : string) (h k : Z) :
  regex_digits PostgreSQL.backend hour = true ->
  Cast_Integer PostgreSQL.backend hour = Some h ->
  0 <= h < 24 ->
  0 <= h - k < 24 ->
  exists out,
    utc_hour_annotation PostgreSQL.backend hour (3600 * k) = Some out /\
    utc_hour_annotation PostgreSQL.backend out (- (3600 * k)) =
      Some (numeral h).
Proof.
  intros Hre Hcast Hh Hdiff.
  exists (numeral (h - k)). split.
  - assert (Hfirst : 0 <= h - 3600 * k / 3600)
      by (rewrite whole_hours_quotient; lia).
    rewrite (utc_hour_fixed_nonneg _ _ _ _ Hre Hcast Hfirst),
      whole_hours_quotient.
    by rewrite Z.mod_small.
  - destruct (PostgreSQL_reads_numeral (h - k)) as [Hre' Hcast']; [lia|].
    assert (Hsecond : 0 <= h - k - - (3600 * k) / 3600)
      by (rewrite whole_hours_quotient_opp; lia).
    rewrite (utc_hour_fixed_nonneg _ _ _ _ Hre' Hcast' Hsecond),
      whole_hours_quotient_opp.
    replace (h - k - - k) with h by lia.
    by rewrite Z.mod_small.
Qed.

End HourMinuteArithmetic.

Section ZeroOffset.

Context {Model : Type}.
Variables timezone_field hour_field minute_field : Model -> string.

(** C9, as amended: on PostgreSQL, on a row whose offset is 0, an hour field
    that is the numeral, without leading zeros, of a number in [0,23] is its
    own annotation, and so is a minute field that is the numeral, without
    leading zeros, of a number that is not negative. *)
Theorem zero_offset_keeps_plain_numerals (timezone_offsets : gmap string Z)
    (row : Model) (a : Annotated Model) (h m : Z) :
  annotate_row PostgreSQL.backend timezone_field hour_field minute_field
    timezone_offsets row = Some a ->
  offset a = 0 ->
  (0 <= h < 24 -> hour_field row = numeral h ->
   utc_hour a = hour_field row) /\
  (0 <= m -> minute_field row = numeral m ->
   utc_minute a = minute_field row).
Proof.
  intros Hann Hzero.
  apply annotate_row_Some in Hann as (_ & _ & Hh & Hm).
  rewrite Hzero in Hh, Hm. split.
  - intros Hrange Hhour. rewrite Hhour in Hh |- *.
    destruct (PostgreSQL_reads_numeral h) as [Hre Hcast]; [lia|].
    assert (Hpos : 0 <= h - 0 / 3600) by (change (0 / 3600) with 0; lia).
    rewrite (utc_hour_fixed_nonneg _ _ _ _ Hre Hcast Hpos) in Hh.
    injection Hh as <-. change (0 / 3600) with 0.
    rewrite Z.sub_0_r. by rewrite Z.mod_small.
  - intros Hpos Hminute. rewrite Hminute in Hm |- *.
    assert (Hre : regex_digits PostgreSQL.backend (numeral m) = true).
    { change (PostgreSQL.regex_digits (numeral m) = true).
      rewrite regex_digits_numeral. by rewrite decide_True. }
    destruct (Cast_Integer PostgreSQL.backend (numeral m)) as [m'|] eqn:Hcast.
    + assert (m' = m) as ->.
      { change (PostgreSQL.Cast_Integer (numeral m) = Some m') in Hcast.
        rewrite PostgreSQL_cast, decimal_numeral in Hcast.
        case_decide; congruence. }
      rewrite (utc_minute_fixed _ _ _ _ Hre Hcast) in Hm.
      injection Hm as <-. change (Z.rem 0 3600 / 60) with 0.
      by rewrite Z.sub_0_r.
    + by rewrite (utc_minute_raises _ _ _ Hre Hcast) in Hm.
Qed.

End ZeroOffset.

(** ** The annotations on the rows of the small host *)

Section OnTheHost.

(** The table of the host: the entry that cannot be loaded is left out. *)
Example host_timezone_offsets :
  Host.timezone_offsets !! "Asia/Kolkata" = Some 19800 /\
  Host.timezone_offsets !! "America/New_York" = Some (-18000) /\
  Host.timezone_offsets !! "Broken/Entry" = None /\
  size Host.timezone_offsets = 6%nat.
Proof. by vm_compute. Qed.

Lemma get_timezone_offsets_on_host :
  Host.timezone_offsets !! "Broken/Entry" = None /\
  Host.timezone_offsets !! "Asia/Kolkata" = Some 19800.
Proof.
  destruct (get_timezone_offsets_skips_failures Host.ZoneInfo
              Host.utcoffset_now Host.zones) as (Hskip & Hload & _).
  split.
  - apply Hskip. reflexivity.
  - apply Hload; [apply list_elem_of_here | reflexivity].
Defined.

(** What the regex of the two backends matches. *)
Example regex_digits_samples :
  map (regex_digits PostgreSQL.backend)
    ["9"; "09"; "99999999999"; "*"; "*/15"; "5-10"; ""; "-3"; "14.0";
     Host.nine_line_feed] =
    [true; true; true; false; false; false; false; false; false; false] /\
  map (regex_digits SQLite.backend)
    ["9"; "09"; "99999999999"; "*"; "*/15"; "5-10"; ""; "-3"; "14.0";
     Host.nine_line_feed] =
    [true; true; true; false; false; false; false; false; false; true].
Proof. by vm_compute. Qed.

Example new_york_0930_annotations :
  Host.with_utc_hour_minute PostgreSQL.backend [Host.new_york_0930] =
    Some (annotated [mkAnnotated Host.new_york_0930 (-18000) "14" "30"]) /\
  Host.with_utc_hour_minute SQLite.backend [Host.new_york_0930] =
    Some (annotated [mkAnnotated Host.new_york_0930 (-18000) "14.0" "30.0"]).
Proof. by vm_compute. Qed.

(** C1: the minute annotation is the difference itself: for the zone
    Asia/Kolkata (19800 seconds ahead of UTC) and the minute field "0" it
    is "-30", where the difference reduced into the range of a minute is
    30. *)
Theorem kolkata_minute_annotation :
  Host.with_utc_hour_minute PostgreSQL.backend [Host.kolkata_0900] =
    Some (annotated [mkAnnotated Host.kolkata_0900 19800 "4" "-30"]) /\
  Cast_Char PostgreSQL.backend
    (((0 - 19800 mod 3600 / 60) mod 60 + 60) mod 60) = "30".
Proof. by vm_compute. Qed.

(** C2: the hour annotation takes the sign of the difference: for the zone
    Asia/Karachi (five whole hours ahead of UTC) and the hour field "2" it
    is "-3", where the difference reduced into the range of an hour is
    21. *)
Theorem karachi_hour_annotation :
  Host.with_utc_hour_minute PostgreSQL.backend [Host.karachi_0215] =
    Some (annotated [mkAnnotated Host.karachi_0215 18000 "-3" "15"]) /\
  Cast_Char PostgreSQL.backend (((2 - 18000 / 3600) mod 24 + 24) mod 24) = "21".
Proof. by vm_compute. Qed.

(** The same two rows on SQLite: the same numbers, written as floats. *)
Example kolkata_karachi_on_sqlite :
  Host.with_utc_hour_minute SQLite.backend
    [Host.kolkata_0900; Host.karachi_0215] =
    Some (annotated [mkAnnotated Host.kolkata_0900 19800 "4.0" "-30.0";
                     mkAnnotated Host.karachi_0215 18000 "-3.0" "15.0"]).
Proof. by vm_compute. Qed.

(** The hour of the same row, and a field that is passed on. *)
Example kolkata_ranges_annotations :
  Host.with_utc_hour_minute PostgreSQL.backend
    [Host.kolkata_0900; Host.kolkata_ranges] =
    Some (annotated [mkAnnotated Host.kolkata_0900 19800 "4" "-30";
                     mkAnnotated Host.kolkata_ranges 19800 "5-10" "*/15"]).
Proof. by vm_compute. Qed.

Lemma complex_fields_verbatim_on_host :
  [Host.kolkata_ranges] !! 0%nat = Some Host.kolkata_ranges /\
  Host.with_utc_hour_minute PostgreSQL.backend [Host.kolkata_ranges] =
    Some (annotated [mkAnnotated Host.kolkata_ranges 19800 "5-10" "*/15"]) /\
  exists a,
    [mkAnnotated Host.kolkata_ranges 19800 "5-10" "*/15"] !! 0%nat = Some a /\
    instance a = Host.kolkata_ranges /\
    (regex_digits PostgreSQL.backend (hour Host.kolkata_ranges) = false ->
     utc_hour a = hour Host.kolkata_ranges) /\
    (regex_digits PostgreSQL.backend (minute Host.kolkata_ranges) = false ->
     utc_minute a = minute Host.kolkata_ranges).
Proof.
  split; [reflexivity|]. split; [reflexivity|].
  apply (complex_fields_verbatim PostgreSQL.backend Host.ZoneInfo
           Host.utcoffset_now timezone hour minute Host.zones
           [Host.kolkata_ranges] 0%nat Host.kolkata_ranges
           (annotated [mkAnnotated Host.kolkata_ranges 19800 "5-10" "*/15"]));
    reflexivity.
Defined.

(** The claim C3 fails on SQLite for an hour field that ends with a line
    feed: the field is not made of digits only, the regex matches it and the
    annotation is "9.0".  It fails on PostgreSQL for the hour "*" of a row
    whose minute has eleven digits: the query has no result. *)
Lemma line_feed_field_is_rewritten :
  all_digits (hour Host.utc_line_feed) = false /\
  Host.with_utc_hour_minute SQLite.backend [Host.utc_line_feed] =
    Some (annotated [mkAnnotated Host.utc_line_feed 0 "9.0" "5.0"]) /\
  "9.0" <> hour Host.utc_line_feed /\
  all_digits (hour Host.utc_oversized) = false /\
  Host.with_utc_hour_minute PostgreSQL.backend [Host.utc_oversized] = None.
Proof. vm_compute. repeat split; discriminate. Qed.

Lemma empty_table_returns_queryset_on_host :
  get_timezone_offsets Host.zones Host.no_ZoneInfo Host.utcoffset_now = ∅ /\
  annotate_with_utc_hour_minute PostgreSQL.backend Host.zones Host.no_ZoneInfo
    Host.utcoffset_now timezone hour minute
    [Host.kolkata_0900; Host.kolkata_ranges] =
    Some (plain [Host.kolkata_0900; Host.kolkata_ranges]).
Proof.
  split; [reflexivity|].
  apply (empty_table_returns_queryset PostgreSQL.backend Host.no_ZoneInfo
           Host.utcoffset_now timezone hour minute Host.zones).
  reflexivity.
Defined.

Lemma unknown_timezone_is_offset_zero_on_host :
  get_timezone_offsets Host.zones Host.ZoneInfo Host.utcoffset_now ≠ ∅ /\
  [Host.elsewhere_0930] !! 0%nat = Some Host.elsewhere_0930 /\
  get_timezone_offsets Host.zones Host.ZoneInfo Host.utcoffset_now
    !! timezone Host.elsewhere_0930 = None /\
  is_Some (annotate_with_utc_hour_minute PostgreSQL.backend Host.zones
             Host.ZoneInfo Host.utcoffset_now timezone hour minute
             [Host.elsewhere_0930]) /\
  exists rows a,
    annotate_with_utc_hour_minute PostgreSQL.backend Host.zones Host.ZoneInfo
      Host.utcoffset_now timezone hour minute [Host.elsewhere_0930] =
      Some (annotated rows) /\
    rows !! 0%nat = Some a /\ instance a = Host.elsewhere_0930 /\
    offset a = 0 /\
    utc_hour_annotation PostgreSQL.backend (hour Host.elsewhere_0930) 0 =
      Some (utc_hour a) /\
    utc_minute_annotation PostgreSQL.backend (minute Host.elsewhere_0930) 0 =
      Some (utc_minute a).
Proof.
  assert (Hne : get_timezone_offsets Host.zones Host.ZoneInfo
                  Host.utcoffset_now ≠ ∅)
    by (vm_compute; discriminate).
  assert (Hsome : is_Some (annotate_with_utc_hour_minute PostgreSQL.backend
                             Host.zones Host.ZoneInfo Host.utcoffset_now
                             timezone hour minute [Host.elsewhere_0930]))
    by (eexists; vm_compute; reflexivity).
  split; [exact Hne|]. split; [reflexivity|]. split; [reflexivity|].
  split; [exact Hsome|].
  apply (unknown_timezone_is_offset_zero PostgreSQL.backend Host.ZoneInfo
           Host.utcoffset_now timezone hour minute Host.zones
           [Host.elsewhere_0930] 0%nat Host.elsewhere_0930);
    [exact Hne | reflexivity | reflexivity | exact Hsome].
Defined.

(** The claim C7 fails on PostgreSQL: a minute field of eleven digits is
    matched by the regex and refused by the cast, and the query fails for
    the other rows too. *)
Lemma oversized_field_fails_query :
  regex_digits PostgreSQL.backend (minute Host.utc_oversized) = true /\
  Cast_Integer PostgreSQL.backend (minute Host.utc_oversized) = None /\
  Host.with_utc_hour_minute PostgreSQL.backend
    [Host.kolkata_0900; Host.utc_oversized] = None.
Proof. by vm_compute. Qed.

Lemma annotate_with_utc_hour_minute_total_on_host :
  (forall row,
      row ∈ [Host.kolkata_0900; Host.kolkata_ranges; Host.elsewhere_0930] ->
      (regex_digits PostgreSQL.backend (hour row) = true ->
       is_Some (Cast_Integer PostgreSQL.backend (hour row))) /\
      (regex_digits PostgreSQL.backend (minute row) = true ->
       is_Some (Cast_Integer PostgreSQL.backend (minute row)))) /\
  (Host.with_utc_hour_minute PostgreSQL.backend
     [Host.kolkata_0900; Host.kolkata_ranges; Host.elsewhere_0930] =
     Some (plain [Host.kolkata_0900; Host.kolkata_ranges;
                  Host.elsewhere_0930]) \/
   exists rows,
     Host.with_utc_hour_minute PostgreSQL.backend
       [Host.kolkata_0900; Host.kolkata_ranges; Host.elsewhere_0930] =
       Some (annotated rows) /\
     map instance rows =
       [Host.kolkata_0900; Host.kolkata_ranges; Host.elsewhere_0930]).
Proof.
  assert (Hcast : forall row,
             row ∈ [Host.kolkata_0900; Host.kolkata_ranges;
                    Host.elsewhere_0930] ->
             (regex_digits PostgreSQL.backend (hour row) = true ->
              is_Some (Cast_Integer PostgreSQL.backend (hour row))) /\
             (regex_digits PostgreSQL.backend (minute row) = true ->
              is_Some (Cast_Integer PostgreSQL.backend (minute row)))).
  { intros row Hin.
    repeat (apply elem_of_cons in Hin as [->|Hin]);
      [| | |by apply elem_of_nil in Hin];
      (split; intros Hre; [|]; try discriminate Hre;
       eexists; vm_compute; reflexivity). }
  split; [exact Hcast|].
  apply (annotate_with_utc_hour_minute_total PostgreSQL.backend Host.ZoneInfo
           Host.utcoffset_now timezone hour minute Host.zones).
  exact Hcast.
Defined.

(** The claim C8 fails for an offset with half an hour in it: on PostgreSQL
    from "9" under -12600 seconds (America/St_Johns) to "13", and from "13"
    under 12600 seconds (Asia/Tehran) to "10".  On SQLite it also fails for
    whole hours: the first annotation, "14.0", is not matched again. *)
Lemma half_hour_round_trip_misses :
  regex_digits PostgreSQL.backend "9" = true /\
  Cast_Integer PostgreSQL.backend "9" = Some 9 /\
  utc_hour_annotation PostgreSQL.backend "9" (- 12600) = Some "13" /\
  utc_hour_annotation PostgreSQL.backend "13" 12600 = Some "10" /\
  "10" <> numeral 9 /\
  utc_hour_annotation SQLite.backend "9" (- 18000) = Some "14.0" /\
  utc_hour_annotation SQLite.backend "14.0" 18000 = Some "14.0".
Proof. vm_compute. repeat split; discriminate. Qed.

Lemma whole_hour_round_trip_new_york :
  regex_digits PostgreSQL.backend "9" = true /\
  Cast_Integer PostgreSQL.backend "9" = Some 9 /\
  0 <= 9 < 24 /\ 0 <= 9 - -5 < 24 /\
  exists out,
    utc_hour_annotation PostgreSQL.backend "9" (3600 * -5) = Some out /\
    utc_hour_annotation PostgreSQL.backend out (- (3600 * -5)) =
      Some (numeral 9).
Proof.
  split; [reflexivity|]. split; [reflexivity|]. split; [lia|]. split; [lia|].
  apply (whole_hour_round_trip "9" 9 (-5)); [reflexivity | reflexivity | lia | lia].
Defined.

(** The claim C9 fails for fields written with a leading zero: on PostgreSQL,
    under the offset 0, the hour "09" becomes "9" and the minute "07"
    becomes "7".  On SQLite it fails for every field of digits: "9" becomes
    "9.0". *)
Lemma zero_offset_drops_leading_zero :
  regex_digits PostgreSQL.backend (hour Host.utc_0907_padded) = true /\
  regex_digits PostgreSQL.backend (minute Host.utc_0907_padded) = true /\
  annotate_row PostgreSQL.backend timezone hour minute Host.timezone_offsets
    Host.utc_0907_padded = Some (mkAnnotated Host.utc_0907_padded 0 "9" "7") /\
  "9" <> hour Host.utc_0907_padded /\ "7" <> minute Host.utc_0907_padded /\
  annotate_row SQLite.backend timezone hour minute Host.timezone_offsets
    Host.utc_0905 = Some (mkAnnotated Host.utc_0905 0 "9.0" "5.0").
Proof. vm_compute. repeat split; discriminate. Qed.

Lemma zero_offset_keeps_plain_numerals_on_host :
  annotate_row PostgreSQL.backend timezone hour minute Host.timezone_offsets
    Host.utc_0905 = Some (mkAnnotated Host.utc_0905 0 "9" "5") /\
  offset (mkAnnotated Host.utc_0905 0 "9" "5") = 0 /\
  (0 <= 9 < 24 -> hour Host.utc_0905 = numeral 9 ->
   utc_hour (mkAnnotated Host.utc_0905 0 "9" "5") = hour Host.utc_0905) /\
  (0 <= 5 -> minute Host.utc_0905 = numeral 5 ->
   utc_minute (mkAnnotated Host.utc_0905 0 "9" "5") = minute Host.utc_0905).
Proof.
  split; [reflexivity|]. split; [reflexivity|].
  apply (zero_offset_keeps_plain_numerals timezone hour minute
           Host.timezone_offsets Host.utc_0905
           (mkAnnotated Host.utc_0905 0 "9" "5") 9 5);
    reflexivity.
Defined.

(** The claim C10 fails on PostgreSQL for a field of eleven digits: it takes
    the arithmetic branch and there is no output.  On SQLite the output of
    the branch is not the decimal numeral of the computed integer: the hour
    "99" under the offset 0 gives "3.0". *)
Lemma digits_only_field_without_numeral :
  regex_digits PostgreSQL.backend "99999999999" = true /\
  utc_hour_annotation PostgreSQL.backend "99999999999" 0 = None /\
  utc_minute_annotation PostgreSQL.backend "99999999999" 0 = None /\
  regex_digits SQLite.backend "99" = true /\
  utc_hour_annotation SQLite.backend "99" 0 = Some "3.0" /\
  "3.0" <> numeral (Z.rem (99 - 0 / 3600) 24).
Proof. vm_compute. repeat split; discriminate. Qed.

Lemma digits_only_field_is_computed_99 :
  regex_digits PostgreSQL.backend "99" = true /\
  NilZero.int_of_string "99" = Some (Pos (D9 (D9 Nil))) /\
  Z.of_int (Pos (D9 (D9 Nil))) <= 2147483647 /\
  utc_hour_annotation PostgreSQL.backend "99" (-18000) = Some "8" /\
  utc_minute_annotation PostgreSQL.backend "99" (-18000) = Some "99" /\
  utc_hour_annotation PostgreSQL.backend "99" 0 = Some "3".
Proof.
  split; [reflexivity|]. split; [reflexivity|].
  assert (Hmax : Z.of_int (Pos (D9 (D9 Nil))) <= 2147483647)
    by (vm_compute; discriminate).
  split; [exact Hmax|].
  destruct (digits_only_field_is_computed "99" (-18000) eq_refl) as [_ Hd].
  destruct (Hd (Pos (D9 (D9 Nil))) eq_refl) as (_ & Hin & _).
  exact (Hin Hmax).
Defined.

(** Out of range and padded fields, as the two databases compute them. *)
Example hour_99_and_09 :
  utc_hour_annotation PostgreSQL.backend "99" 0 = Some "3" /\
  utc_hour_annotation PostgreSQL.backend "09" 0 = Some "9" /\
  utc_hour_annotation PostgreSQL.backend "99" (-18000) = Some "8" /\
  utc_minute_annotation PostgreSQL.backend "075" 0 = Some "75" /\
  utc_hour_annotation SQLite.backend "09" 0 = Some "9.0" /\
  utc_minute_annotation SQLite.backend "075" 0 = Some "75.0".
Proof. by vm_compute. Qed.

End OnTheHost.

(** ** More on the offset table *)

Section OffsetTableMore.

Context {tzinfo : Type}.
Variable ZoneInfo : string -> option tzinfo.
Variable utcoffset_now : tzinfo -> option Z.

(** X1: the table does not depend on the order in which the set of
    identifiers is visited, nor on an identifier being visited twice: two
    lists with the same elements give the same table. *)
Theorem get_timezone_offsets_any_order (names1 names2 : list string) :
  (forall tz_name, tz_name ∈ names1 <-> tz_name ∈ names2) ->
  get_timezone_offsets names1 ZoneInfo utcoffset_now =
    get_timezone_offsets names2 ZoneInfo utcoffset_now.
Proof.
  intros Hsame. apply map_eq. intros key.
  rewrite !get_timezone_offsets_lookup.
  destruct (decide (key ∈ names1)) as [Hin|Hnin].
  - by rewrite decide_True by (by apply Hsame).
  - by rewrite decide_False by (by rewrite <- Hsame).
Qed.

(** X2: the table is empty exactly when the body of the [try] block raises
    for every identifier that is visited. *)
Theorem get_timezone_offsets_empty_iff (names : list string) :
  get_timezone_offsets names ZoneInfo utcoffset_now = ∅ <->
  forall tz_name,
    tz_name ∈ names -> current_offset ZoneInfo utcoffset_now tz_name = None.
Proof.
  split.
  - intros Hempty tz_name Hin.
    assert (Hlook := get_timezone_offsets_lookup ZoneInfo utcoffset_now
                       names tz_name).
    rewrite Hempty, lookup_empty, decide_True in Hlook by done. done.
  - intros Hnone. apply map_eq. intros key.
    rewrite get_timezone_offsets_lookup, lookup_empty.
    case_decide; [by apply Hnone | done].
Qed.

(** X4: the table has at most one entry for each identifier visited. *)
Theorem get_timezone_offsets_size (names : list string) :
  (size (get_timezone_offsets names ZoneInfo utcoffset_now) <= length names)%nat.
Proof.
  rewrite <- length_map_to_list.
  rewrite <- (length_fmap fst).
  apply submseteq_length, NoDup_submseteq.
  - apply NoDup_fst_map_to_list.
  - intros key [[key' o] [-> Hin]]%list_elem_of_fmap.
    apply elem_of_map_to_list in Hin. cbn.
    rewrite get_timezone_offsets_lookup in Hin. by case_decide.
Qed.

End OffsetTableMore.

(** ** More on the annotated queryset *)

Section AnnotatedQuerysetMore.

Variable backend : Backend.
Context {tzinfo : Type}.
Variable ZoneInfo : string -> option tzinfo.
Variable utcoffset_now : tzinfo -> option Z.
Context {Model : Type}.
Variables timezone_field hour_field minute_field : Model -> string.

Lemma mapM_app {A B : Type} (f : A -> option B) (l1 l2 : list A) :
  mapM f (l1 ++ l2)%list =
    match mapM f l1, mapM f l2 with
    | Some k1, Some k2 => Some (k1 ++ k2)%list
    | _, _ => None
    end.
Proof.
  induction l1 as [|x l1 IH]; cbn.
  - by destruct (mapM f l2).
  - destruct (f x); cbn; [|done]. rewrite IH.
    destruct (mapM f l1); cbn; [|done]. by destruct (mapM f l2).
Qed.

(** X3: the queryset comes back without annotations exactly when no
    identifier of the host database yields an offset. *)
Theorem not_annotated_iff_nothing_resolves (names : list string)
    (queryset : list Model) :
  annotate_with_utc_hour_minute backend names ZoneInfo utcoffset_now
    timezone_field hour_field minute_field queryset = Some (plain queryset) <->
  forall tz_name,
    tz_name ∈ names -> current_offset ZoneInfo utcoffset_now tz_name = None.
Proof.
  split.
  - intros Hplain tz_name Hin.
    apply annotate_Some in Hplain as [[Hempty _]|(_ & rows & Hrows & _)];
      [|discriminate].
    assert (Hlook := get_timezone_offsets_lookup ZoneInfo utcoffset_now
                       names tz_name).
    rewrite Hempty, lookup_empty, decide_True in Hlook by done. done.
  - intros Hnone. apply annotate_empty_table.
    apply map_eq. intros key.
    rewrite get_timezone_offsets_lookup, lookup_empty.
    case_decide; [by apply Hnone | done].
Qed.

(** X5: in the result of the query, a row whose timezone is a key of the
    table has the offset stored under that key, and its hour and minute
    annotations are the ones its fields get under that offset. *)
Theorem known_timezone_gets_its_offset (names : list string)
    (queryset : list Model) (i : nat) (row : Model) (offset_sec : Z) :
  queryset !! i = Some row ->
  get_timezone_offsets names ZoneInfo utcoffset_now !! timezone_field row
    = Some offset_sec ->
  is_Some (annotate_with_utc_hour_minute backend names ZoneInfo utcoffset_now
             timezone_field hour_field minute_field queryset) ->
  exists rows a,
    annotate_with_utc_hour_minute backend names ZoneInfo utcoffset_now
      timezone_field hour_field minute_field queryset = Some (annotated rows) /\
    rows !! i = Some a /\ instance a = row /\ offset a = offset_sec /\
    utc_hour_annotation backend (hour_field row) offset_sec =
      Some (utc_hour a) /\
    utc_minute_annotation backend (minute_field row) offset_sec =
      Some (utc_minute a).
Proof.
  intros Hrow Hknown [result Hres].
  destruct (annotate_Some _ _ _ _ _ _ _ _ _ Hres)
    as [[Hempty _]|(_ & rows & -> & Hrows)].
  { rewrite Hempty, lookup_empty in Hknown. discriminate. }
  destruct (Forall2_lookup_l _ _ _ _ _ Hrows Hrow) as (a & Ha & Hann).
  exists rows, a. split; [done|]. split; [done|].
  apply annotate_row_Some in Hann as (Hinst & Hoff & Hh & Hm).
  rewrite Hknown in Hoff. cbn in Hoff. rewrite Hoff in Hh, Hm. auto.
Qed.

(** X6: the rows are annotated one by one: the result for two querysets put
    end to end is the two results put end to end, and there is none when
    either of the two queries fails. *)
Theorem annotate_app (names : list string) (queryset1 queryset2 : list Model) :
  annotate_with_utc_hour_minute backend names ZoneInfo utcoffset_now
    timezone_field hour_field minute_field (queryset1 ++ queryset2) =
  match annotate_with_utc_hour_minute backend names ZoneInfo utcoffset_now
          timezone_field hour_field minute_field queryset1,
        annotate_with_utc_hour_minute backend names ZoneInfo utcoffset_now
          timezone_field hour_field minute_field queryset2 with
  | Some (plain rows1), Some (plain rows2) => Some (plain (rows1 ++ rows2))
  | Some (annotated rows1), Some (annotated rows2) =>
      Some (annotated (rows1 ++ rows2))
  | _, _ => None
  end.
Proof.
  destruct (decide (get_timezone_offsets names ZoneInfo utcoffset_now = ∅))
    as [Hempty|Hne].
  - by rewrite !annotate_empty_table.
  - rewrite !annotate_nonempty_table by done. rewrite mapM_app.
    destruct (mapM _ queryset1); cbn; [|done].
    by destruct (mapM _ queryset2).
Qed.

End AnnotatedQuerysetMore.

(** ** More on the hour and minute arithmetic

    The numbers are those of an [IntegerField] and the offsets are within a
    day: there the arithmetic of every database is exact. *)

Section HourMinuteMore.

Variable backend : Backend.

(** X7: where the hour is not below the whole hours of the offset (so for
    every zone at or west of UTC), the hour annotation is the text that the
    database writes for the difference reduced modulo 24, a number of
    [0,23]. *)
Theorem utc_hour_in_range (hour : string) (h offset : Z) :
  regex_digits backend hour = true -> Cast_Integer backend hour = Some h ->
  0 <= h <= 2147483647 -> -86400 < offset < 86400 ->
  offset / 3600 <= h ->
  utc_hour_annotation backend hour offset =
    Some (Cast_Char backend ((h - offset / 3600) mod 24)) /\
  0 <= (h - offset / 3600) mod 24 < 24.
Proof.
  intros Hre Hcast _ _ Hle. split.
  - apply utc_hour_fixed_nonneg; [done|done|lia].
  - apply Z.mod_pos_bound. lia.
Qed.

(** X8: for every hour field that the regex matches, the hour annotation is
    the text that the database writes for a number strictly between -24 and
    24 that differs from the hour minus the whole hours of the offset by a
    multiple of 24. *)
Theorem utc_hour_bounds (hour : string) (h offset : Z) :
  regex_digits backend hour = true -> Cast_Integer backend hour = Some h ->
  0 <= h <= 2147483647 -> -86400 < offset < 86400 ->
  exists v,
    utc_hour_annotation backend hour offset = Some (Cast_Char backend v) /\
    -24 < v < 24 /\
    (h - offset / 3600 - v) mod 24 = 0.
Proof.
  intros Hre Hcast _ _. exists (Z.rem (h - offset / 3600) 24).
  split; [by apply utc_hour_fixed|]. split.
  - assert (Habs := Z.rem_bound_abs (h - offset / 3600) 24). lia.
  - assert (Hqr := Z.quot_rem' (h - offset / 3600) 24).
    replace (h - offset / 3600 - Z.rem (h - offset / 3600) 24)
      with ((h - offset / 3600) ÷ 24 * 24) by lia.
    apply Z.mod_mul. lia.
Qed.

(** X9: under an offset of whole hours the minute annotation is the text
    that the database writes for the number the minute field denotes. *)
Theorem utc_minute_whole_hours (minute : string) (m k : Z) :
  regex_digits backend minute = true -> Cast_Integer backend minute = Some m ->
  0 <= m <= 2147483647 -> -24 < k < 24 ->
  utc_minute_annotation backend minute (3600 * k) =
    Some (Cast_Char backend m).
Proof.
  intros Hre Hcast _ _. rewrite (utc_minute_fixed _ _ m) by done.
  rewrite Z.mul_comm, Z.rem_mul by lia.
  change (0 / 60) with 0. by rewrite Z.sub_0_r.
Qed.

Lemma minutes_of_rem (offset : Z) :
  Z.rem offset 3600 / 60 = offset mod 3600 / 60 \/
  Z.rem offset 3600 / 60 = offset mod 3600 / 60 - 60.
Proof.
  assert (Hqr := Z.quot_rem' offset 3600).
  assert (Hdm := Z.div_mod offset 3600).
  assert (Hmod := Z.mod_pos_bound offset 3600).
  assert (Habs := Z.rem_bound_abs offset 3600).
  assert (Hcases : Z.rem offset 3600 = offset mod 3600 \/
                   Z.rem offset 3600 = offset mod 3600 - 60 * 60) by lia.
  destruct Hcases as [->| ->]; [by left | right].
  replace (offset mod 3600 - 60 * 60) with (offset mod 3600 + (-60) * 60)
    by lia.
  rewrite Z.div_add by lia. lia.
Qed.

(** X10: where the difference is a minute of the hour, the minute annotation
    is the text that the database writes for the minute of the field minus
    the minutes of the offset, reduced modulo 60. *)
Theorem utc_minute_in_range (minute : string) (m offset : Z) :
  regex_digits backend minute = true -> Cast_Integer backend minute = Some m ->
  0 <= m <= 2147483647 -> -86400 < offset < 86400 ->
  0 <= m - Z.rem offset 3600 / 60 < 60 ->
  utc_minute_annotation backend minute offset =
    Some (Cast_Char backend (((m - offset mod 3600 / 60) mod 60 + 60) mod 60)).
Proof.
  intros Hre Hcast _ _ Hrange. rewrite (utc_minute_fixed _ _ m) by done.
  do 2 f_equal.
  rewrite (Z.add_mod ((m - offset mod 3600 / 60) mod 60) 60) by lia.
  rewrite Z.mod_mod, Z.mod_same, Z.add_0_r, Z.mod_mod by lia.
  destruct (minutes_of_rem offset) as [Heq|Heq]; rewrite Heq in Hrange |- *.
  - symmetry. apply Z.mod_small. lia.
  - replace (m - offset mod 3600 / 60)
      with (m - (offset mod 3600 / 60 - 60) + (-1) * 60) by lia.
    rewrite Z.mod_add by lia. symmetry. apply Z.mod_small. lia.
Qed.

(** X11: the minute annotation of a field that denotes [m] is the text that
    the database writes for a number between [m - 59] and [m + 60]. *)
Theorem utc_minute_bounds (minute : string) (m offset : Z) :
  regex_digits backend minute = true -> Cast_Integer backend minute = Some m ->
  0 <= m <= 2147483647 -> -86400 < offset < 86400 ->
  exists v,
    utc_minute_annotation backend minute offset = Some (Cast_Char backend v) /\
    m - 59 <= v <= m + 60.
Proof.
  intros Hre Hcast _ _. exists (m - Z.rem offset 3600 / 60).
  split; [by apply utc_minute_fixed|].
  assert (Habs := Z.rem_bound_abs offset 3600).
  assert (Hlo : -60 <= Z.rem offset 3600 / 60)
    by (apply Z.div_le_lower_bound; lia).
  assert (Hhi : Z.rem offset 3600 / 60 < 60)
    by (apply Z.div_lt_upper_bound; lia).
  lia.
Qed.

(** X12: the hour annotation only sees the whole hours of the offset: the
    part of the offset below an hour never moves the hour. *)
Theorem utc_hour_ignores_minutes (hour : string) (k r : Z) :
  0 <= r < 3600 ->
  utc_hour_annotation backend hour (3600 * k + r) =
    utc_hour_annotation backend hour (3600 * k).
Proof.
  intros Hr. unfold utc_hour_annotation. rewrite !Floor_quotient.
  rewrite whole_hours_quotient.
  replace (3600 * k + r) with (r + k * 3600) by lia.
  rewrite Z.div_add by lia. by rewrite Z.div_small by lia.
Qed.

End HourMinuteMore.

(** ** Columns that may be NULL, and periodic tasks *)

Section NullableFacts.

Variable backend : Backend.

Lemma nullable_offset_known (timezone_offsets : gmap string Z)
    (timezone : string) :
  Nullable.offset_annotation timezone_offsets (Some timezone) =
    offset_annotation timezone_offsets timezone.
Proof. reflexivity. Qed.

Lemma nullable_offset_null (timezone_offsets : gmap string Z) :
  Nullable.offset_annotation timezone_offsets None = 0.
Proof.
  unfold Nullable.offset_annotation.
  induction (map fst (map_to_list timezone_offsets)) as [|tz keys IH];
    [done|exact IH].
Qed.

Lemma nullable_hour_text (hour : string) (offset : Z) :
  Nullable.utc_hour_annotation backend (Some hour) offset =
    Some <$> utc_hour_annotation backend hour offset.
Proof.
  unfold Nullable.utc_hour_annotation, utc_hour_annotation, When. cbn.
  destruct (regex_digits backend hour); [|done].
  by destruct (Cast_Integer backend hour).
Qed.

Lemma nullable_minute_text (minute : string) (offset : Z) :
  Nullable.utc_minute_annotation backend (Some minute) offset =
    Some <$> utc_minute_annotation backend minute offset.
Proof.
  unfold Nullable.utc_minute_annotation, utc_minute_annotation, When. cbn.
  destruct (regex_digits backend minute); [|done].
  by destruct (Cast_Integer backend minute).
Qed.

Lemma mapM_fmap_rows {A B C : Type} (f : A -> option B) (g : A -> option C)
    (lift : B -> C) (l : list A) :
  (forall x, g x = lift <$> f x) ->
  mapM g l = map lift <$> mapM f l.
Proof.
  intros Hrow. induction l as [|x l IH]; [done|].
  cbn. rewrite Hrow, IH.
  destruct (f x); [|done]. cbn. by destruct (mapM f l).
Qed.

Lemma mapM_filter_Some {A B : Type} (f : A -> option B) (p : A -> bool)
    (q : B -> bool) (l : list A) (k : list B) :
  (forall x y, f x = Some y -> q y = p x) ->
  mapM f l = Some k ->
  mapM f (List.filter p l) = Some (List.filter q k).
Proof.
  intros Hpq Hk. apply mapM_Some in Hk. apply mapM_Some.
  induction Hk as [|x y l k Hxy _ IH]; [constructor|].
  cbn [List.filter]. rewrite (Hpq _ _ Hxy).
  destruct (p x); [by constructor | done].
Qed.

Context {Model : Type}.
Variables timezone_field hour_field minute_field : Model -> option string.

(** What [annotate_row] gives when it has a value: a column that is NULL
    gives a NULL annotation, and a NULL timezone the offset 0. *)
Lemma nullable_annotate_row_Some (timezone_offsets : gmap string Z)
    (row : Model) (a : Nullable.Annotated Model) :
  Nullable.annotate_row backend timezone_field hour_field minute_field
    timezone_offsets row = Some a ->
  Nullable.instance a = row /\
  (timezone_field row = None -> Nullable.offset a = 0) /\
  (hour_field row = None -> Nullable.utc_hour a = None) /\
  (minute_field row = None -> Nullable.utc_minute a = None).
Proof.
  unfold Nullable.annotate_row. cbv zeta.
  set (o := Nullable.offset_annotation timezone_offsets (timezone_field row)).
  assert (Hoff : timezone_field row = None -> o = 0).
  { intros Hnull. subst o. rewrite Hnull. apply nullable_offset_null. }
  destruct (Nullable.utc_hour_annotation backend (hour_field row) o)
    as [uh|] eqn:Hh; [|done].
  destruct (Nullable.utc_minute_annotation backend (minute_field row) o)
    as [um|] eqn:Hm; [|done].
  cbn. intros [= <-]. cbn. split; [done|]. split; [done|]. split.
  - intros Hnull. rewrite Hnull in Hh. cbn in Hh. congruence.
  - intros Hnull. rewrite Hnull in Hm. cbn in Hm. congruence.
Qed.

(** A row has its annotations when the cast accepts the text of its columns
    that the regex matches; a NULL column asks nothing. *)
Lemma nullable_annotate_row_is_Some (timezone_offsets : gmap string Z)
    (row : Model) :
  (forall text,
      hour_field row = Some text -> regex_digits backend text = true ->
      is_Some (Cast_Integer backend text)) ->
  (forall text,
      minute_field row = Some text -> regex_digits backend text = true ->
      is_Some (Cast_Integer backend text)) ->
  is_Some (Nullable.annotate_row backend timezone_field hour_field
             minute_field timezone_offsets row).
Proof.
  intros Hhour Hminute. unfold Nullable.annotate_row. cbv zeta.
  set (o := Nullable.offset_annotation timezone_offsets (timezone_field row)).
  assert (Hh : is_Some (Nullable.utc_hour_annotation backend
                          (hour_field row) o)).
  { destruct (hour_field row) as [text|]; [|by eexists].
    rewrite nullable_hour_text.
    destruct (utc_hour_is_Some backend text o (Hhour text eq_refl)) as [uh ->].
    by eexists. }
  assert (Hm : is_Some (Nullable.utc_minute_annotation backend
                          (minute_field row) o)).
  { destruct (minute_field row) as [text|]; [|by eexists].
    rewrite nullable_minute_text.
    destruct (utc_minute_is_Some backend text o (Hminute text eq_refl))
      as [um ->].
    by eexists. }
  destruct Hh as [uh ->]. destruct Hm as [um ->]. by eexists.
Qed.

End NullableFacts.

Section NullableQueryset.

Variable backend : Backend.
Context {tzinfo : Type}.
Variable ZoneInfo : string -> option tzinfo.
Variable utcoffset_now : tzinfo -> option Z.

(** X13: on columns that hold text on every row, the annotations over
    columns that may be NULL are the annotations of
    [annotate_with_utc_hour_minute]: the same offsets, and the same hours and
    minutes, none of them NULL, and a failure in the same cases. *)
Theorem nullable_annotations_on_text {Model : Type}
    (timezone_field hour_field minute_field : Model -> string)
    (names : list string) (queryset : list Model) :
  Nullable.fetch
    (Nullable.annotate_with_utc_hour_minute backend names ZoneInfo
       utcoffset_now
       (fun row => Some (timezone_field row)) (fun row => Some (hour_field row))
       (fun row => Some (minute_field row)) (Nullable.all queryset)) =
  nullable_queryset <$>
    annotate_with_utc_hour_minute backend names ZoneInfo utcoffset_now
      timezone_field hour_field minute_field queryset.
Proof.
  unfold Nullable.annotate_with_utc_hour_minute, annotate_with_utc_hour_minute.
  cbv zeta. case_decide; [done|].
  unfold Nullable.fetch. cbn [Nullable.annotations Nullable.selected].
  rewrite (mapM_fmap_rows
             (annotate_row backend timezone_field hour_field minute_field
                (get_timezone_offsets names ZoneInfo utcoffset_now))
             _ nullable_row).
  - by destruct (mapM _ queryset).
  - intros row. unfold Nullable.annotate_row, annotate_row. cbv zeta.
    rewrite nullable_offset_known, nullable_hour_text, nullable_minute_text.
    set (o := offset_annotation _ (timezone_field row)).
    destruct (utc_hour_annotation backend (hour_field row) o); [|done].
    by destruct (utc_minute_annotation backend (minute_field row) o).
Qed.

Variable PeriodicTask : Type.
Variable enabled_field : PeriodicTask -> bool.
Variables crontab__timezone crontab__hour crontab__minute
  : PeriodicTask -> option string.

(** X14: the query of [with_crontab_utc_hour_minute] has a result for every
    queryset of periodic tasks in which the integer cast accepts every
    crontab field that the regex matches: the tasks themselves (empty table),
    or one annotated row for each task, in order.  A task whose crontab
    columns are NULL does not make the query fail: it has the offset 0 and a
    NULL hour and minute. *)
Theorem with_crontab_utc_hour_minute_total (names : list string)
    (tasks : list PeriodicTask) :
  (forall task text,
      task ∈ tasks ->
      crontab__hour task = Some text \/ crontab__minute task = Some text ->
      regex_digits backend text = true ->
      is_Some (Cast_Integer backend text)) ->
  Nullable.fetch
    (with_crontab_utc_hour_minute backend names ZoneInfo utcoffset_now
       crontab__timezone crontab__hour crontab__minute (Nullable.all tasks)) =
    Some (Nullable.plain tasks) \/
  exists rows,
    Nullable.fetch
      (with_crontab_utc_hour_minute backend names ZoneInfo utcoffset_now
         crontab__timezone crontab__hour crontab__minute (Nullable.all tasks)) =
      Some (Nullable.annotated rows) /\
    map Nullable.instance rows = tasks /\
    Forall (fun a =>
              (crontab__timezone (Nullable.instance a) = None ->
               Nullable.offset a = 0) /\
              (crontab__hour (Nullable.instance a) = None ->
               Nullable.utc_hour a = None) /\
              (crontab__minute (Nullable.instance a) = None ->
               Nullable.utc_minute a = None)) rows.
Proof.
  intros Hcast.
  unfold with_crontab_utc_hour_minute, Nullable.annotate_with_utc_hour_minute.
  cbv zeta. case_decide; [by left | right].
  unfold Nullable.fetch. cbn [Nullable.annotations Nullable.selected Nullable.all].
  set (f := Nullable.annotate_row backend crontab__timezone crontab__hour
              crontab__minute (get_timezone_offsets names ZoneInfo utcoffset_now)).
  assert (Hall : is_Some (mapM f tasks)).
  { apply mapM_is_Some, Forall_forall. intros task Hin. unfold compose, f.
    apply nullable_annotate_row_is_Some; intros text Htext; eauto. }
  destruct Hall as [rows Hrows]. exists rows. rewrite Hrows.
  split; [done|]. apply mapM_Some in Hrows. clear Hcast.
  induction Hrows as [|task a tasks rows Ha _ [Hinst Hnull]]; [done|].
  apply nullable_annotate_row_Some in Ha as (Htask & Ha).
  split; [cbn; by rewrite Htask, Hinst|].
  constructor; [by rewrite Htask | done].
Qed.

(** X15: the filter [enabled] and the annotation can be applied in either
    order: they build the same queryset.  When the query over all the tasks
    has a result, the query over the enabled tasks has the enabled rows of
    that result, with the same annotations. *)
Theorem enabled_with_crontab_utc_hour_minute (names : list string) :
  (forall self : Nullable.QuerySet PeriodicTask,
      with_crontab_utc_hour_minute backend names ZoneInfo utcoffset_now
        crontab__timezone crontab__hour crontab__minute
        (enabled enabled_field self) =
      enabled enabled_field
        (with_crontab_utc_hour_minute backend names ZoneInfo utcoffset_now
           crontab__timezone crontab__hour crontab__minute self)) /\
  (forall (tasks : list PeriodicTask) rows,
      Nullable.fetch
        (with_crontab_utc_hour_minute backend names ZoneInfo utcoffset_now
           crontab__timezone crontab__hour crontab__minute
           (Nullable.all tasks)) = Some (Nullable.annotated rows) ->
      Nullable.fetch
        (with_crontab_utc_hour_minute backend names ZoneInfo utcoffset_now
           crontab__timezone crontab__hour crontab__minute
           (enabled enabled_field (Nullable.all tasks))) =
        Some (Nullable.annotated
                (List.filter (fun a => enabled_field (Nullable.instance a))
                   rows))).
Proof.
  split.
  - intros self.
    unfold with_crontab_utc_hour_minute, Nullable.annotate_with_utc_hour_minute,
      enabled, Nullable.filter.
    cbv zeta. by case_decide.
  - intros tasks rows.
    unfold with_crontab_utc_hour_minute, Nullable.annotate_with_utc_hour_minute,
      enabled, Nullable.filter.
    cbv zeta. case_decide; [discriminate|].
    unfold Nullable.fetch.
    cbn [Nullable.annotations Nullable.selected Nullable.all].
    set (f := Nullable.annotate_row backend crontab__timezone crontab__hour
                crontab__minute
                (get_timezone_offsets names ZoneInfo utcoffset_now)).
    destruct (mapM f tasks) as [rows'|] eqn:Hrows; [|discriminate].
    intros [= <-].
    rewrite (mapM_filter_Some f enabled_field
               (fun a => enabled_field (Nullable.instance a)) tasks rows');
      [done| |done].
    intros task a Ha. unfold f in Ha.
    by apply nullable_annotate_row_Some in Ha as [-> _].
Qed.

End NullableQueryset.

(** ** More rows of the small host *)

Section OnTheHostMore.

Lemma get_timezone_offsets_any_order_on_host :
  (forall tz_name,
      tz_name ∈ Host.zones <-> tz_name ∈ (rev Host.zones ++ ["UTC"])%list) /\
  get_timezone_offsets Host.zones Host.ZoneInfo Host.utcoffset_now =
    get_timezone_offsets (rev Host.zones ++ ["UTC"])%list Host.ZoneInfo
      Host.utcoffset_now.
Proof.
  assert (Hsame : forall tz_name,
             tz_name ∈ Host.zones <-> tz_name ∈ (rev Host.zones ++ ["UTC"])%list)
    by (intros tz_name; unfold Host.zones; simpl;
        rewrite !elem_of_cons, !elem_of_nil; tauto).
  split; [exact Hsame|].
  apply (get_timezone_offsets_any_order Host.ZoneInfo Host.utcoffset_now
           Host.zones (rev Host.zones ++ ["UTC"])%list).
  exact Hsame.
Defined.

Lemma known_timezone_gets_its_offset_on_host :
  [Host.new_york_0930] !! 0%nat = Some Host.new_york_0930 /\
  get_timezone_offsets Host.zones Host.ZoneInfo Host.utcoffset_now
    !! timezone Host.new_york_0930 = Some (-18000) /\
  is_Some (annotate_with_utc_hour_minute PostgreSQL.backend Host.zones
             Host.ZoneInfo Host.utcoffset_now timezone hour minute
             [Host.new_york_0930]) /\
  exists rows a,
    annotate_with_utc_hour_minute PostgreSQL.backend Host.zones Host.ZoneInfo
      Host.utcoffset_now timezone hour minute [Host.new_york_0930] =
      Some (annotated rows) /\
    rows !! 0%nat = Some a /\ instance a = Host.new_york_0930 /\
    offset a = -18000 /\
    utc_hour_annotation PostgreSQL.backend (hour Host.new_york_0930) (-18000) =
      Some (utc_hour a) /\
    utc_minute_annotation PostgreSQL.backend (minute Host.new_york_0930)
      (-18000) = Some (utc_minute a).
Proof.
  assert (Hsome : is_Some (annotate_with_utc_hour_minute PostgreSQL.backend
                             Host.zones Host.ZoneInfo Host.utcoffset_now
                             timezone hour minute [Host.new_york_0930]))
    by (eexists; vm_compute; reflexivity).
  split; [reflexivity|]. split; [reflexivity|]. split; [exact Hsome|].
  apply (known_timezone_gets_its_offset PostgreSQL.backend Host.ZoneInfo
           Host.utcoffset_now timezone hour minute Host.zones
           [Host.new_york_0930] 0%nat Host.new_york_0930 (-18000));
    [reflexivity | reflexivity | exact Hsome].
Defined.

Lemma utc_hour_in_range_new_york :
  regex_digits SQLite.backend "9" = true /\
  Cast_Integer SQLite.backend "9" = Some 9 /\
  0 <= 9 <= 2147483647 /\ -86400 < -18000 < 86400 /\
  -18000 / 3600 <= 9 /\
  utc_hour_annotation SQLite.backend "9" (-18000) =
    Some (Cast_Char SQLite.backend ((9 - -18000 / 3600) mod 24)) /\
  0 <= (9 - -18000 / 3600) mod 24 < 24.
Proof.
  split; [reflexivity|]. split; [reflexivity|]. split; [lia|]. split; [lia|].
  split; [vm_compute; discriminate|].
  apply (utc_hour_in_range SQLite.backend "9" 9 (-18000));
    [reflexivity | reflexivity | lia | lia | vm_compute; discriminate].
Defined.

Lemma utc_hour_bounds_karachi :
  regex_digits SQLite.backend "2" = true /\
  Cast_Integer SQLite.backend "2" = Some 2 /\
  0 <= 2 <= 2147483647 /\ -86400 < 18000 < 86400 /\
  exists v,
    utc_hour_annotation SQLite.backend "2" 18000 =
      Some (Cast_Char SQLite.backend v) /\
    -24 < v < 24 /\ (2 - 18000 / 3600 - v) mod 24 = 0.
Proof.
  split; [reflexivity|]. split; [reflexivity|]. split; [lia|]. split; [lia|].
  apply (utc_hour_bounds SQLite.backend "2" 2 18000);
    [reflexivity | reflexivity | lia | lia].
Defined.

Lemma utc_minute_whole_hours_new_york :
  regex_digits SQLite.backend "30" = true /\
  Cast_Integer SQLite.backend "30" = Some 30 /\
  0 <= 30 <= 2147483647 /\ -24 < -5 < 24 /\
  utc_minute_annotation SQLite.backend "30" (3600 * -5) =
    Some (Cast_Char SQLite.backend 30).
Proof.
  split; [reflexivity|]. split; [reflexivity|]. split; [lia|]. split; [lia|].
  apply (utc_minute_whole_hours SQLite.backend "30" 30 (-5));
    [reflexivity | reflexivity | lia | lia].
Defined.

Lemma utc_minute_in_range_kolkata :
  regex_digits PostgreSQL.backend "45" = true /\
  Cast_Integer PostgreSQL.backend "45" = Some 45 /\
  0 <= 45 <= 2147483647 /\ -86400 < 19800 < 86400 /\
  0 <= 45 - Z.rem 19800 3600 / 60 < 60 /\
  utc_minute_annotation PostgreSQL.backend "45" 19800 =
    Some (Cast_Char PostgreSQL.backend
            (((45 - 19800 mod 3600 / 60) mod 60 + 60) mod 60)).
Proof.
  split; [reflexivity|]. split; [reflexivity|]. split; [lia|]. split; [lia|].
  assert (Hrange : 0 <= 45 - Z.rem 19800 3600 / 60 < 60)
    by (vm_compute; split; [discriminate | reflexivity]).
  split; [exact Hrange|].
  apply (utc_minute_in_range PostgreSQL.backend "45" 45 19800);
    [reflexivity | reflexivity | lia | lia | exact Hrange].
Defined.

Lemma utc_minute_bounds_kolkata :
  regex_digits SQLite.backend "0" = true /\
  Cast_Integer SQLite.backend "0" = Some 0 /\
  0 <= 0 <= 2147483647 /\ -86400 < 19800 < 86400 /\
  exists v,
    utc_minute_annotation SQLite.backend "0" 19800 =
      Some (Cast_Char SQLite.backend v) /\
    0 - 59 <= v <= 0 + 60.
Proof.
  split; [reflexivity|]. split; [reflexivity|]. split; [lia|]. split; [lia|].
  apply (utc_minute_bounds SQLite.backend "0" 0 19800);
    [reflexivity | reflexivity | lia | lia].
Defined.

Lemma utc_hour_ignores_minutes_kolkata :
  0 <= 1800 < 3600 /\
  utc_hour_annotation PostgreSQL.backend "9" (3600 * 5 + 1800) =
    utc_hour_annotation PostgreSQL.backend "9" (3600 * 5).
Proof.
  split; [lia|].
  apply (utc_hour_ignores_minutes PostgreSQL.backend "9" 5 1800). lia.
Defined.

(** Four tasks: one disabled, one without a crontab, and one, disabled, whose
    minute has eleven digits.  On PostgreSQL the query over all the tasks
    fails; the query over the enabled tasks does not evaluate the fourth. *)
Example tasks_annotations :
  Nullable.fetch
    (Tasks.with_crontab_utc_hour_minute PostgreSQL.backend
       (Nullable.all [Tasks.backup; Tasks.report; Tasks.heartbeat;
                      Tasks.broken])) = None /\
  Nullable.fetch
    (enabled Tasks.is_enabled
       (Tasks.with_crontab_utc_hour_minute PostgreSQL.backend
          (Nullable.all [Tasks.backup; Tasks.report; Tasks.heartbeat;
                         Tasks.broken]))) =
  Some (Nullable.annotated
          [Nullable.mkAnnotated Tasks.backup (-18000) (Some "14") (Some "30");
           Nullable.mkAnnotated Tasks.heartbeat 0 None None]) /\
  Nullable.fetch
    (Tasks.with_crontab_utc_hour_minute SQLite.backend
       (Nullable.all [Tasks.backup; Tasks.heartbeat])) =
  Some (Nullable.annotated
          [Nullable.mkAnnotated Tasks.backup (-18000) (Some "14.0")
             (Some "30.0");
           Nullable.mkAnnotated Tasks.heartbeat 0 None None]).
Proof. by vm_compute. Qed.

Lemma with_crontab_utc_hour_minute_total_on_host :
  (forall task text,
      task ∈ [Tasks.backup; Tasks.report; Tasks.heartbeat] ->
      Tasks.crontab__hour task = Some text \/
      Tasks.crontab__minute task = Some text ->
      regex_digits PostgreSQL.backend text = true ->
      is_Some (Cast_Integer PostgreSQL.backend text)) /\
  (Nullable.fetch
     (Tasks.with_crontab_utc_hour_minute PostgreSQL.backend
        (Nullable.all [Tasks.backup; Tasks.report; Tasks.heartbeat])) =
     Some (Nullable.plain [Tasks.backup; Tasks.report; Tasks.heartbeat]) \/
   exists rows,
     Nullable.fetch
       (Tasks.with_crontab_utc_hour_minute PostgreSQL.backend
          (Nullable.all [Tasks.backup; Tasks.report; Tasks.heartbeat])) =
       Some (Nullable.annotated rows) /\
     map Nullable.instance rows =
       [Tasks.backup; Tasks.report; Tasks.heartbeat] /\
     Forall (fun a =>
               (Tasks.crontab__timezone (Nullable.instance a) = None ->
                Nullable.offset a = 0) /\
               (Tasks.crontab__hour (Nullable.instance a) = None ->
                Nullable.utc_hour a = None) /\
               (Tasks.crontab__minute (Nullable.instance a) = None ->
                Nullable.utc_minute a = None)) rows).
Proof.
  assert (Hcast : forall task text,
             task ∈ [Tasks.backup; Tasks.report; Tasks.heartbeat] ->
             Tasks.crontab__hour task = Some text \/
             Tasks.crontab__minute task = Some text ->
             regex_digits PostgreSQL.backend text = true ->
             is_Some (Cast_Integer PostgreSQL.backend text)).
  { intros task text Hin Htext Hre.
    repeat (apply elem_of_cons in Hin as [->|Hin]);
      [| | |by apply elem_of_nil in Hin];
      destruct Htext as [[= <-]|[= <-]]; try discriminate Hre;
      eexists; vm_compute; reflexivity. }
  split; [exact Hcast|].
  apply (with_crontab_utc_hour_minute_total PostgreSQL.backend Host.ZoneInfo
           Host.utcoffset_now Tasks.PeriodicTask Tasks.crontab__timezone
           Tasks.crontab__hour Tasks.crontab__minute Host.zones).
  exact Hcast.
Defined.

End OnTheHostMore.
